(** * Radio.py: synthetic audience series of the Reunion radio stations

    A shallow embedding of [ReunionRadioAnalyzer] (src/Radio.py): the series
    generator [_create_realistic_audience_data], the accessors
    [get_radio_data] and [get_all_data], and the two trend computations of
    the chart panel and of the console printout.

    Python floats are IEEE 754 binary64 numbers: they are modelled by Rocq's
    primitive floats, whose operations are specified by [FloatAxioms] against
    [SpecFloat].  Python dicts keep insertion order and the code iterates over
    them, so a dict is an association list with Python's update discipline.
    The NumPy global random state is an explicit state threaded through the
    generator; a missing key ([KeyError]) or an unparsable integer
    ([ValueError]) is [None]. *)

From Stdlib Require Import ZArith List String Bool Lia Floats.
From Stdlib Require Import DecimalString DecimalZ DecimalPos FinFun Sorted Permutation.
Import ListNotations.

Set Warnings "-inexact-float".
Local Open Scope string_scope.
Local Open Scope Z_scope.

(** ** Python built-ins used by the program *)

Module Py.

(** [str(n)] and [int(s)] on integers.  [int] is modelled on signed decimal
    digit strings, which is what [str] writes; the other spellings Python
    accepts (surrounding blanks, a leading plus, underscores) are [None]. *)
Definition str (n : Z) : string := NilZero.string_of_int (Z.to_int n).

Definition int (s : string) : option Z :=
  option_map Z.of_int (NilZero.int_of_string s).

(** [range(lo, hi)] *)
Definition range (lo hi : Z) : list Z :=
  map (fun i => lo + Z.of_nat i) (seq 0 (Z.to_nat (hi - lo))).

(** Conversion of an [int] operand in mixed arithmetic ([trend * years_passed]):
    the nearest double, ties to even. *)
Definition float_of_int (n : Z) : float :=
  SF2Prim (binary_normalize prec emax n 0 false).

(** [min(a, b)] and [max(a, b)] on two arguments keep the first one unless the
    second compares strictly smaller (resp. greater); a NaN never does. *)
Definition min (a b : float) : float := if (b <? a)%float then b else a.
Definition max (a b : float) : float := if (a <? b)%float then b else a.

(** [round(x, ndigits)] for a float [x] and [ndigits >= 0]: the decimal
    [k / 10^ndigits] closest to the exact value of [x], ties to the even [k],
    converted back to the closest double; zeros, infinities and NaN round to
    themselves, and a result that rounds to zero keeps the sign of [x]. *)
Definition round_half_even (n d : Z) : Z :=
  let q := n / d in
  match (2 * (n mod d)) ?= d with
  | Lt => q
  | Gt => q + 1
  | Eq => if Z.even q then q else q + 1
  end.

Definition scaled_magnitude (scale : Z) (m : positive) (e : Z) : Z :=
  if 0 <=? e then scale * Z.pos m * 2 ^ e
  else round_half_even (scale * Z.pos m) (2 ^ (- e)).

Definition nearest_decimal (scale : positive) (k : Z) : float :=
  match k with
  | Z0 => 0%float
  | Zpos p => SF2Prim (SF64div (S754_finite false p 0) (S754_finite false scale 0))
  | Zneg p => SF2Prim (SF64div (S754_finite true p 0) (S754_finite false scale 0))
  end.

Definition round (x : float) (ndigits : nat) : float :=
  let scale := Z.to_pos (10 ^ Z.of_nat ndigits) in
  match Prim2SF x with
  | S754_finite s m e =>
      let k := scaled_magnitude (Z.pos scale) m e in
      if k =? 0 then (if s then (-0)%float else 0%float)
      else nearest_decimal scale (if s then - k else k)
  | _ => x
  end.

(** Insertion-ordered [dict] with string keys. *)
Definition dict (V : Type) : Type := list (string * V).

Fixpoint get {V} (k : string) (d : dict V) : option V :=
  match d with
  | [] => None
  | (k', v) :: d' => if String.eqb k' k then Some v else get k d'
  end.

(** [d[k] = v]: an existing key keeps its position, a new key goes last. *)
Fixpoint set {V} (k : string) (v : V) (d : dict V) : dict V :=
  match d with
  | [] => [(k, v)]
  | (k', v') :: d' =>
      if String.eqb k' k then (k', v) :: d' else (k', v') :: set k v d'
  end.

Definition keys {V} (d : dict V) : list string := map fst d.

End Py.

(** ** Computations that draw random numbers and may raise *)

Module Rand.

(** A computation over the random state [St]: [None] is a raised exception. *)
Definition M (St A : Type) : Type := St -> option (A * St).

Definition ret {St A} (a : A) : M St A := fun s => Some (a, s).

Definition bind {St A B} (m : M St A) (f : A -> M St B) : M St B :=
  fun s => match m s with
           | Some (a, s') => f a s'
           | None => None
           end.

(** A subscript [d[k]] whose key may be missing. *)
Definition item {St A} (o : option A) : M St A :=
  fun s => match o with
           | Some a => Some (a, s)
           | None => None
           end.

(** One call of a sampler of the random source. *)
Definition draw {St} (sampler : St -> float * St) : M St float :=
  fun s => Some (sampler s).

(** [for x in xs: acc = body(acc, x)] *)
Fixpoint for_each {St A B} (xs : list A) (body : B -> A -> M St B) (acc : B)
  : M St B :=
  match xs with
  | [] => ret acc
  | x :: xs' => bind (body acc x) (for_each xs' body)
  end.

End Rand.

Notation "x <- m ;; k" := (Rand.bind m (fun x => k))
  (at level 61, m at next level, right associativity).

(** ** The analyzer *)

(** An entry of [self.radios]. *)
Record RadioInfo : Type := {
  type : string;
  lancement : Z;
  couleur : string
}.

(** A row of the table built by [get_all_data]; the columns are, in the
    source, 'Radio', 'Type', 'Année', 'Audience (%)', 'Lancement', 'Couleur'. *)
Record FlatRecord : Type := {
  Radio : string;
  Type_ : string;
  Annee : Z;
  Audience : float;
  Lancement : Z;
  Couleur : string
}.

Definition radios_registry : Py.dict RadioInfo :=
  [ ("Réunion 1ère", {| type := "Public"; lancement := 1960; couleur := "#FF6B00" |});
    ("NRJ Réunion", {| type := "Commercial"; lancement := 1990; couleur := "#FF0000" |});
    ("Freedom", {| type := "Commercial"; lancement := 1982; couleur := "#0000FF" |});
    ("RCI", {| type := "Commercial"; lancement := 1981; couleur := "#800080" |});
    ("Radio Est", {| type := "Associative"; lancement := 1983; couleur := "#008000" |});
    ("Radio Kreol", {| type := "Culturelle"; lancement := 1995; couleur := "#FFD700" |});
    ("Hit West", {| type := "Commercial"; lancement := 2005; couleur := "#FF1493" |});
    ("Radio Sun", {| type := "Commercial"; lancement := 1987; couleur := "#FFA500" |}) ].

Definition trends : Py.dict (Py.dict float) :=
  [ ("Réunion 1ère", [("2002", 28.5); ("trend", -0.25); ("volatility", 0.8)]);
    ("NRJ Réunion", [("2002", 16.8); ("trend", 0.15); ("volatility", 1.0)]);
    ("Freedom", [("2002", 14.2); ("trend", 0.10); ("volatility", 0.9)]);
    ("RCI", [("2002", 12.5); ("trend", -0.08); ("volatility", 0.7)]);
    ("Radio Est", [("2002", 8.3); ("trend", 0.05); ("volatility", 0.6)]);
    ("Radio Kreol", [("2002", 6.7); ("trend", 0.20); ("volatility", 0.8)]);
    ("Hit West", [("2005", 4.5); ("trend", 0.35); ("volatility", 1.2)]);
    ("Radio Sun", [("2002", 5.2); ("trend", 0.12); ("volatility", 0.7)]) ]%float.

(** [start_year = 2002; if radio == 'Hit West': start_year = 2005] *)
Definition start_year_of (radio : string) : Z :=
  if String.eqb radio "Hit West" then 2005 else 2002.

(** [v] is the double closest to a whole number of tenths. *)
Definition one_decimal (v : float) : Prop :=
  exists k : Z, v = Py.nearest_decimal 10 k.

(** [max(1.0, min(35.0, round(value, 1)))] *)
Definition clamp_round (value : float) : float :=
  Py.max 1.0 (Py.min 35.0 (Py.round value 1)).

Record ReunionRadioAnalyzer : Type := {
  radios : Py.dict RadioInfo;
  audience_data : Py.dict (Py.dict float)
}.

Section Generator.

(** The random source: [np.random.normal(loc, scale)] and
    [np.random.uniform(low, high)] read and advance the state [St].
    NumPy's [normal] raises [ValueError] on a negative [scale]; the
    volatilities of [trends] are all positive, and the model covers the
    calls whose scale is not negative. *)
Variable St : Type.
Variable normal : float -> float -> St -> float * St.
Variable uniform : float -> float -> St -> float * St.

Local Abbreviation M := (Rand.M St).

(** The special events of lines 67-72. *)
Definition special_event (year : Z) (value : float) : M float :=
  if year =? 2008 then
    u <- Rand.draw (uniform (-2) (-1)) ;; Rand.ret (value + u)%float
  else if year =? 2020 then
    u <- Rand.draw (uniform 2 4) ;; Rand.ret (value + u)%float
  else if year =? 2021 then
    u <- Rand.draw (uniform (-1) 1) ;; Rand.ret (value + u)%float
  else Rand.ret value.

(** Lines 59-72: the value of one year before it is rounded and clamped. *)
Definition raw_value (base_value trend volatility : float)
    (start_year year : Z) : M float :=
  let years_passed := year - start_year in
  let value := (base_value + trend * Py.float_of_int years_passed)%float in
  variation <- Rand.draw (normal 0 volatility) ;;
  let value := (value + variation)%float in
  special_event year value.

(** Lines 59-75: the value stored for one year. *)
Definition year_value (base_value trend volatility : float)
    (start_year year : Z) : M float :=
  value <- raw_value base_value trend volatility start_year year ;;
  Rand.ret (clamp_round value).

(** Lines 55-76: one turn of the loop over the years. *)
Definition year_body (radio : string) (base_value trend volatility : float)
    (start_year : Z) (audience_data : Py.dict (Py.dict float)) (year : Z)
  : M (Py.dict (Py.dict float)) :=
  if year <? start_year then Rand.ret audience_data
  else
    value <- year_value base_value trend volatility start_year year ;;
    series <- Rand.item (Py.get radio audience_data) ;;
    Rand.ret (Py.set radio (Py.set (Py.str year) value series) audience_data).

(** Lines 45-76: one turn of the loop over [trends.items()]. *)
Definition radio_body (audience_data : Py.dict (Py.dict float))
    (entry : string * Py.dict float) : M (Py.dict (Py.dict float)) :=
  let '(radio, params) := entry in
  let audience_data := Py.set radio [] audience_data in
  let start_year := start_year_of radio in
  base_value <- Rand.item (Py.get (Py.str start_year) params) ;;
  trend <- Rand.item (Py.get "trend" params) ;;
  volatility <- Rand.item (Py.get "volatility" params) ;;
  Rand.for_each (Py.range 2002 2026)
    (year_body radio base_value trend volatility start_year) audience_data.

Definition _create_realistic_audience_data : M (Py.dict (Py.dict float)) :=
  Rand.for_each trends radio_body [].

(** [__init__] *)
Definition init : M ReunionRadioAnalyzer :=
  data <- _create_realistic_audience_data ;;
  Rand.ret {| radios := radios_registry; audience_data := data |}.

End Generator.

(** [get_radio_data]: [self.audience_data.get(radio_name, {})] *)
Definition get_radio_data (self : ReunionRadioAnalyzer) (radio_name : string)
  : Py.dict float :=
  match Py.get radio_name (audience_data self) with
  | Some data => data
  | None => []
  end.

(** One row of [get_all_data] (lines 90-97). *)
Definition flat_record (self : ReunionRadioAnalyzer) (radio year : string)
    (audience : float) : option FlatRecord :=
  match Py.get radio (radios self), Py.int year with
  | Some info, Some y =>
      Some {| Radio := radio; Type_ := type info; Annee := y;
              Audience := audience; Lancement := lancement info;
              Couleur := couleur info |}
  | _, _ => None
  end.

(** [for x in xs], with an accumulator, in code that can raise. *)
Fixpoint for_opt {A B} (xs : list A) (body : B -> A -> option B) (acc : B)
  : option B :=
  match xs with
  | [] => Some acc
  | x :: xs' => match body acc x with
                | Some acc' => for_opt xs' body acc'
                | None => None
                end
  end.

(** [get_all_data]: the rows of the DataFrame, in order. *)
Definition get_all_data (self : ReunionRadioAnalyzer) : option (list FlatRecord) :=
  for_opt (audience_data self)
    (fun all_data '(radio, data) =>
       for_opt data
         (fun all_data '(year, audience) =>
            match flat_record self radio year audience with
            | Some row => Some (all_data ++ [row])%list
            | None => None
            end)
         all_data)
    [].

(** ** The trend computations over the table *)

(** [df['Radio'].unique()]: the distinct values in order of first appearance. *)
Fixpoint unique (l : list string) : list string :=
  match l with
  | [] => []
  | x :: l' => x :: filter (fun y => negb (String.eqb x y)) (unique l')
  end.

(** [df[df['Radio'] == radio]] *)
Definition rows_of (df : list FlatRecord) (radio : string) : list FlatRecord :=
  filter (fun row => String.eqb (Radio row) radio) df.

(** [.iloc[0]] and [.iloc[-1]]; [None] is an [IndexError]. *)
Definition iloc_first {A} (l : list A) : option A := hd_error l.
Definition iloc_last {A} (l : list A) : option A := hd_error (rev l).

(** [Series.max()]: NaN entries are skipped, an empty column gives NaN. *)
Definition column_max (col : list float) : float :=
  match filter (fun v => (v =? v)%float) col with
  | [] => nan
  | v :: vs => fold_left (fun m x => if (m <? x)%float then x else m) vs v
  end.

(** A row of [trends_df] in [create_comprehensive_analysis]. *)
Record TrendRow : Type := {
  trend_Radio : string;
  Tendance : float;
  trend_Type : string
}.

(** Lines 148-156: the rows behind the fourth chart panel. *)
Definition chart_trends (df : list FlatRecord) : option (list TrendRow) :=
  for_opt (unique (map Radio df))
    (fun trends radio =>
       let radio_data := rows_of df radio in
       if 1 <? Z.of_nat (List.length radio_data) then
         match iloc_first radio_data, iloc_last radio_data with
         | Some first, Some last =>
             let start_audience := Audience first in
             let end_audience := Audience last in
             let trend := (end_audience - start_audience)%float in
             Some (trends ++ [{| trend_Radio := radio; Tendance := trend;
                                 trend_Type := Type_ first |}])%list
         | _, _ => None
         end
       else Some trends)
    [].

(** Lines 199-206: the trend printed for each station by
    [_display_statistics], as the pair of the two values the line formats
    (the station and [trend]); [start] and [avg] do not enter [trend]. *)
Definition display_trends (df : list FlatRecord) : option (list (string * float)) :=
  for_opt (unique (map Radio df))
    (fun printed radio =>
       let radio_data := rows_of df radio in
       if 1 <? Z.of_nat (List.length radio_data) then
         match iloc_first radio_data with
         | Some first =>
             let end_ := column_max (map Audience radio_data) in
             let trend := (end_ - Audience first)%float in
             Some (printed ++ [(radio, trend)])%list
         | None => None
         end
       else Some printed)
    [].

(** ** Deterministic random sources *)

(** Noise forced to zero: [normal] returns 0 and leaves the state alone. *)
Definition zero_normal {St : Type} (loc scale : float) (s : St) : float * St :=
  (0%float, s).

(** Shocks disabled: [uniform] returns 0. *)
Definition zero_uniform {St : Type} (low high : float) (s : St) : float * St :=
  (0%float, s).

(** A [uniform] that always returns its lower bound. *)
Definition low_uniform {St : Type} (low high : float) (s : St) : float * St :=
  (low, s).

(** The table of a run with no noise and every shock at its lower bound. *)
Definition quiet_table : option (list FlatRecord) :=
  match init unit zero_normal low_uniform tt with
  | Some (self, _) => get_all_data self
  | None => None
  end.

(** ** What a run of the generator leaves in [audience_data] *)

Section Shape.

Variable St : Type.
Variable normal : float -> float -> St -> float * St.
Variable uniform : float -> float -> St -> float * St.

(** The item [e] was stored for [year]: its key is [str(year)] and its value
    came out of lines 59-75, run from some state of the random source. *)
Definition stored_by (base_value trend volatility : float) (start_year : Z)
    (year : Z) (e : string * float) : Prop :=
  fst e = Py.str year /\
  exists s0 s1,
    year_value St normal uniform base_value trend volatility start_year year s0
    = Some (snd e, s1).

(** The item [out] of [audience_data] is the series of the [trends] item
    [entry]: same station, one stored item per year from the start year of
    the station to 2025, in this order. *)
Definition station_series (entry out : string * Py.dict float) : Prop :=
  let radio := fst entry in
  let params := snd entry in
  fst out = radio /\
  exists base_value trend volatility,
    Py.get (Py.str (start_year_of radio)) params = Some base_value /\
    Py.get "trend" params = Some trend /\
    Py.get "volatility" params = Some volatility /\
    Forall2 (stored_by base_value trend volatility (start_year_of radio))
      (Py.range (start_year_of radio) 2026) (snd out).

End Shape.

(** The three subscripts of [params] in lines 50-52 find their keys. *)
Definition has_params (entry : string * Py.dict float) : bool :=
  let '(radio, params) := entry in
  match Py.get (Py.str (start_year_of radio)) params,
        Py.get "trend" params, Py.get "volatility" params with
  | Some _, Some _, Some _ => true
  | _, _, _ => false
  end.

(** [audience_data[radio][str(year)]] *)
Definition stored_value (data : Py.dict (Py.dict float)) (radio : string)
    (year : Z) : option float :=
  match Py.get radio data with
  | Some series => Py.get (Py.str year) series
  | None => None
  end.

(** The years a series holds, read back from its keys. *)
Definition years_of (series : Py.dict float) : list (option Z) :=
  map Py.int (Py.keys series).

(** ** The random source and the shocks, as the specification words them *)

(** [uniform(low, high)] returns a number between its bounds. *)
Definition uniform_in_range {St : Type}
    (uniform : float -> float -> St -> float * St) : Prop :=
  forall low high s,
    (low <=? high)%float = true ->
    (low <=? fst (uniform low high s))%float = true /\
    (fst (uniform low high s) <=? high)%float = true.

(** [raw] is [pre] after the shock of [year], drawn from the state [s1]:
    minus an amount in [1, 2] in 2008, plus an amount in [2, 4] in 2020, plus
    an amount in [-1, 1] in 2021, and no shock in any other year. *)
Definition shock_applied {St : Type}
    (uniform : float -> float -> St -> float * St)
    (year : Z) (s1 : St) (pre raw : float) : Prop :=
  if year =? 2008 then
    exists a, (1 <=? a)%float = true /\ (a <=? 2)%float = true /\
              fst (uniform (-2)%float (-1)%float s1) = (- a)%float /\
              raw = (pre - a)%float
  else if year =? 2020 then
    exists a, (2 <=? a)%float = true /\ (a <=? 4)%float = true /\
              fst (uniform 2%float 4%float s1) = a /\
              raw = (pre + a)%float
  else if year =? 2021 then
    exists a, (-1 <=? a)%float = true /\ (a <=? 1)%float = true /\
              fst (uniform (-1)%float 1%float s1) = a /\
              raw = (pre + a)%float
  else raw = pre.

(** ** The rows of the table *)

(** The entry of a station in the static registry; the empty entry stands
    for a station that is not registered. *)
Definition info_of (radio : string) : RadioInfo :=
  match Py.get radio radios_registry with
  | Some info => info
  | None => {| type := ""; lancement := 0; couleur := "" |}
  end.

(** The row that lines 90-97 write for the item [(key, audience)] of the
    series of [radio]. *)
Definition row_for (radio key : string) (audience : float) : FlatRecord :=
  {| Radio := radio;
     Type_ := type (info_of radio);
     Annee := match Py.int key with Some y => y | None => 0 end;
     Audience := audience;
     Lancement := lancement (info_of radio);
     Couleur := couleur (info_of radio) |}.

(** The rows of a whole [audience_data], station after station. *)
Definition rows_for (data : Py.dict (Py.dict float)) : list FlatRecord :=
  flat_map (fun item => map (fun e => row_for (fst item) (fst e) (snd e))
                            (snd item))
           data.

(** The number of years from the start year of each station through 2025,
    summed over the stations. *)
Definition expected_count (stations : list string) : Z :=
  fold_right Z.add 0
    (map (fun radio => 2025 - start_year_of radio + 1) stations).

(** ** The trend of a station, three ways *)

(** The table of the run without noise, or the empty table had it raised. *)
Definition quiet_df : list FlatRecord :=
  match quiet_table with
  | Some df => df
  | None => []
  end.

(** The audience of [radio] in [year], read from the table. *)
Definition value_in_year (df : list FlatRecord) (radio : string) (year : Z)
  : option float :=
  option_map Audience
    (find (fun row => String.eqb (Radio row) radio && (Annee row =? year)) df).

(** The start-to-end delta in the words of the specification: the value of
    the station in its final covered year minus its value in its first
    covered year. *)
Definition start_to_end_delta (df : list FlatRecord) (radio : string)
  : option float :=
  match value_in_year df radio 2025,
        value_in_year df radio (start_year_of radio) with
  | Some final, Some first => Some (final - first)%float
  | _, _ => None
  end.

(** The trend drawn for [radio] in the chart panel. *)
Definition plotted_trend (df : list FlatRecord) (radio : string)
  : option float :=
  match chart_trends df with
  | Some rows =>
      option_map Tendance
        (find (fun r => String.eqb (trend_Radio r) radio) rows)
  | None => None
  end.

(** The trend printed for [radio] on the console. *)
Definition printed_trend (df : list FlatRecord) (radio : string)
  : option float :=
  match display_trends df with
  | Some lines => Py.get radio lines
  | None => None
  end.

(** The block that one turn of lines 149-156 appends. *)
Definition chart_block (df : list FlatRecord) (radio : string) : list TrendRow :=
  match rows_of df radio with
  | first :: (_ :: _) as rest =>
      [{| trend_Radio := radio;
          Tendance := (Audience (List.last rest first) - Audience first)%float;
          trend_Type := Type_ first |}]
  | _ => []
  end.

(** The block that one turn of lines 199-206 prints. *)
Definition display_block (df : list FlatRecord) (radio : string)
  : list (string * float) :=
  match rows_of df radio with
  | first :: (_ :: _) as rest =>
      [(radio,
        (column_max (map Audience (first :: rest)) - Audience first)%float)]
  | _ => []
  end.

(** ** The calls made to the random source *)

(** One call of [np.random.normal] or [np.random.uniform]. *)
Inductive Call : Type :=
| Normal (loc scale : float)
| Uniform (low high : float).

Section Calls.

Variable St : Type.
Variable normal : float -> float -> St -> float * St.
Variable uniform : float -> float -> St -> float * St.

(** The state of the random source after one call, and after a sequence. *)
Definition call_state (s : St) (c : Call) : St :=
  match c with
  | Normal loc scale => snd (normal loc scale s)
  | Uniform low high => snd (uniform low high s)
  end.

Definition run_calls (calls : list Call) (s : St) : St :=
  fold_left call_state calls s.

End Calls.

(** The calls of lines 67-72 for one year. *)
Definition event_calls (year : Z) : list Call :=
  if year =? 2008 then [Uniform (-2) (-1)]
  else if year =? 2020 then [Uniform 2 4]
  else if year =? 2021 then [Uniform (-1) 1]
  else [].

(** The calls of lines 59-75 for one year. *)
Definition year_calls (volatility : float) (year : Z) : list Call :=
  Normal 0 volatility :: event_calls year.

(** The calls of one turn of the loop over the stations. *)
Definition station_calls (entry : string * Py.dict float) : list Call :=
  match Py.get "volatility" (snd entry) with
  | Some volatility =>
      flat_map (year_calls volatility)
        (Py.range (start_year_of (fst entry)) 2026)
  | None => []
  end.

(** The calls of a whole run of the generator. *)
Definition generator_calls : list Call := flat_map station_calls trends.

Definition is_normal (c : Call) : bool :=
  match c with Normal _ _ => true | Uniform _ _ => false end.

(** ** The colours of the trend panel *)

(** Lines 158-159: [trends_df = pd.DataFrame(trends)], then the registry
    colour of each station of [trends_df['Radio']].  A DataFrame built from
    an empty list has no column, so the subscript raises when no trend was
    appended; a station missing from [self.radios] raises as well. *)
Definition trend_colors (self : ReunionRadioAnalyzer) (df : list FlatRecord)
  : option (list string) :=
  match chart_trends df with
  | Some (first :: rest) =>
      for_opt (first :: rest)
        (fun colors row =>
           match Py.get (trend_Radio row) (radios self) with
           | Some info => Some (colors ++ [couleur info])%list
           | None => None
           end)
        []
  | _ => None
  end.

(** The stations of a table that have more than one row, in order of first
    appearance. *)
Definition trended_stations (df : list FlatRecord) : list string :=
  filter (fun radio => 1 <? Z.of_nat (List.length (rows_of df radio)))
         (unique (map Radio df)).

(** ** The latest year *)

(** In the functions over a table, [df] is the list of the rows of a
    DataFrame that has the six columns of [get_all_data]; such a table may
    have no row. *)

(** [latest_year = df['Année'].max()] (lines 123 and 188); [None] stands for
    the NaN that an empty column gives. *)
Definition latest_year (df : list FlatRecord) : option Z :=
  match map Annee df with
  | [] => None
  | y :: ys => Some (fold_left Z.max ys y)
  end.

(** [latest_data = df[df['Année'] == latest_year]] (lines 124 and 189). *)
Definition latest_data (df : list FlatRecord) : list FlatRecord :=
  match latest_year df with
  | Some y => filter (fun row => Annee row =? y) df
  | None => []
  end.

(** ** The ranking of the console *)

(** [DataFrame.nlargest(n, 'Audience (%)')] with its default [keep='first'],
    for [n] smaller than the number of rows: the [n] rows with the largest
    audience, largest first, rows of equal audience in the order of the
    table; the rows without an audience (NaN) come after all others. *)
Fixpoint insert_by_audience (row : FlatRecord) (sorted : list FlatRecord)
  : list FlatRecord :=
  match sorted with
  | [] => [row]
  | r :: rest =>
      if (Audience row <? Audience r)%float
      then r :: insert_by_audience row rest
      else row :: sorted
  end.

Definition sort_by_audience (rows : list FlatRecord) : list FlatRecord :=
  fold_right insert_by_audience [] rows.

Definition has_audience (row : FlatRecord) : bool :=
  (Audience row =? Audience row)%float.

Definition nlargest (n : nat) (df : list FlatRecord) : list FlatRecord :=
  firstn n (sort_by_audience (filter has_audience df)
            ++ filter (fun row => negb (has_audience row)) df).

(** Line 193: [top_5 = latest_data.nlargest(5, 'Audience (%)')]. *)
Definition top_5 (df : list FlatRecord) : list FlatRecord :=
  nlargest 5 (latest_data df).

(** The audience of [low] is at most the audience of [high]. *)
Definition outranks (high low : FlatRecord) : Prop :=
  (Audience low <=? Audience high)%float = true.

(** ** The time series panel *)

(** [sort_values('Année')]: the rows in increasing year.  Rows of the same
    year keep the order of the table; pandas' default sort leaves the order
    of such rows unspecified. *)
Fixpoint insert_by_year (row : FlatRecord) (sorted : list FlatRecord)
  : list FlatRecord :=
  match sorted with
  | [] => [row]
  | r :: rest =>
      if Annee r <? Annee row then r :: insert_by_year row rest
      else row :: sorted
  end.

Definition sort_by_year (rows : list FlatRecord) : list FlatRecord :=
  fold_right insert_by_year [] rows.

(** One call of [axes[0].plot]: the two columns, the label and the colour. *)
Record Curve : Type := {
  curve_years : list Z;
  curve_audiences : list float;
  curve_label : string;
  curve_color : string
}.

(** The curve of one station (lines 109-112), given its registry entry. *)
Definition curve_of (df : list FlatRecord) (radio : string) (info : RadioInfo)
  : Curve :=
  let radio_data := sort_by_year (rows_of df radio) in
  {| curve_years := map Annee radio_data;
     curve_audiences := map Audience radio_data;
     curve_label := radio;
     curve_color := couleur info |}.

(** Lines 108-112: the curves of the first panel. *)
Definition time_series (self : ReunionRadioAnalyzer) (df : list FlatRecord)
  : option (list Curve) :=
  for_opt (unique (map Radio df))
    (fun curves radio =>
       match Py.get radio (radios self) with
       | Some info => Some (curves ++ [curve_of df radio info])%list
       | None => None
       end)
    [].

(** The audiences a run can store. *)
Definition storable (v : float) : Prop :=
  (1 <=? v)%float = true /\ (v <=? 35)%float = true.

(** ** The state of the random source at each turn *)

(** The items of a dict that come before the key [k]. *)
Fixpoint entries_before {V} (k : string) (d : Py.dict V) : Py.dict V :=
  match d with
  | [] => []
  | (k', v) :: d' =>
      if String.eqb k' k then [] else (k', v) :: entries_before k d'
  end.

(** The calls that a run makes before it computes the value of [year] for
    [radio]: the calls of the stations that come before [radio] in [trends],
    then the calls of the years of [radio] before [year]. *)
Definition calls_before (radio : string) (year : Z) : list Call :=
  (flat_map station_calls (entries_before radio trends)
   ++ match Py.get radio trends with
      | Some params =>
          match Py.get "volatility" params with
          | Some volatility =>
              flat_map (year_calls volatility)
                (Py.range (start_year_of radio) year)
          | None => []
          end
      | None => []
      end)%list.

(** The years of a list that come before [year]. *)
Fixpoint take_until (year : Z) (ys : list Z) : list Z :=
  match ys with
  | [] => []
  | y :: ys' => if y =? year then [] else y :: take_until year ys'
  end.

(** The parameter [params[key]], or 0 when the key is missing. *)
Definition param (key : string) (params : Py.dict float) : float :=
  match Py.get key params with
  | Some v => v
  | None => 0%float
  end.

Section Threaded.

Variable St : Type.
Variable normal : float -> float -> St -> float * St.
Variable uniform : float -> float -> St -> float * St.

(** The value that lines 59-75 store for [year] from the state [s]. *)
Definition year_store (base_value trend volatility : float)
    (start_year year : Z) (s : St) : float :=
  match year_value St normal uniform base_value trend volatility
          start_year year s with
  | Some (v, _) => v
  | None => 0%float
  end.

(** The items that the loop over the years stores from the state [s]. *)
Fixpoint series_from (base_value trend volatility : float) (start_year : Z)
    (ys : list Z) (s : St) : Py.dict float :=
  match ys with
  | [] => []
  | y :: ys' =>
      if y <? start_year
      then series_from base_value trend volatility start_year ys' s
      else (Py.str y,
            year_store base_value trend volatility start_year y s)
           :: series_from base_value trend volatility start_year ys'
                (run_calls St normal uniform (year_calls volatility y) s)
  end.

(** The series of one station, from the state at the start of its turn. *)
Definition station_series_from (entry : string * Py.dict float) (s : St)
  : Py.dict float :=
  let radio := fst entry in
  let params := snd entry in
  series_from (param (Py.str (start_year_of radio)) params)
    (param "trend" params) (param "volatility" params)
    (start_year_of radio) (Py.range 2002 2026) s.

(** The whole [audience_data], from the state at the start of the run. *)
Fixpoint data_from (ts : Py.dict (Py.dict float)) (s : St)
  : Py.dict (Py.dict float) :=
  match ts with
  | [] => []
  | entry :: ts' =>
      (fst entry, station_series_from entry s)
      :: data_from ts' (run_calls St normal uniform (station_calls entry) s)
  end.

End Threaded.

(** * Facts about the built-ins *)

Module PyFacts.

(** [int] reads back what [str] wrote. *)
Lemma int_str (n : Z) : Py.int (Py.str n) = Some n.
Proof.
  unfold Py.int, Py.str.
  rewrite NilZero.isi.
  - simpl. now rewrite DecimalZ.of_to.
  - destruct n; simpl; try discriminate.
    intros H. injection H as H. now apply DecimalPos.Unsigned.to_uint_nonnil in H.
  - destruct n; simpl; try discriminate.
    intros H. injection H as H. now apply DecimalPos.Unsigned.to_uint_nonnil in H.
Qed.

Lemma str_inj (n m : Z) : Py.str n = Py.str m -> n = m.
Proof.
  intros H. apply (f_equal Py.int) in H.
  rewrite !int_str in H. congruence.
Qed.

Lemma in_range (lo hi y : Z) : In y (Py.range lo hi) <-> lo <= y < hi.
Proof.
  unfold Py.range. rewrite in_map_iff. split.
  - intros (i & <- & Hi). apply in_seq in Hi. lia.
  - intros H. exists (Z.to_nat (y - lo)). split; [lia|].
    apply in_seq. lia.
Qed.

Lemma NoDup_range (lo hi : Z) : NoDup (Py.range lo hi).
Proof.
  unfold Py.range. apply Injective_map_NoDup.
  - intros i j H. lia.
  - apply seq_NoDup.
Qed.

Lemma length_range (lo hi : Z) :
  Z.of_nat (List.length (Py.range lo hi)) = Z.max 0 (hi - lo).
Proof. unfold Py.range. rewrite length_map, length_seq. lia. Qed.

(** *** Comparisons of doubles *)

Lemma ltb_leb (x y : float) : (x <? y)%float = true -> (x <=? y)%float = true.
Proof.
  rewrite ltb_spec, leb_spec. unfold SFltb, SFleb.
  destruct (SFcompare (Prim2SF x) (Prim2SF y)) as [[]|]; congruence.
Qed.

Lemma SFcompare_refl (x : spec_float) :
  x <> S754_nan -> SFcompare x x = Some Eq.
Proof.
  destruct x as [s|s| |s m e]; simpl; try congruence.
  - destruct s; reflexivity.
  - intros _. rewrite Z.compare_refl, Pos.compare_cont_refl.
    destruct s; reflexivity.
Qed.

Lemma leb_refl_of_leb (x y : float) :
  (x <=? y)%float = true -> (x <=? x)%float = true.
Proof.
  rewrite !leb_spec. unfold SFleb. intros H.
  rewrite SFcompare_refl; [reflexivity|].
  intros E. rewrite E in H. discriminate.
Qed.

Lemma SFcompare_opp (x y : spec_float) :
  SFcompare (SFopp x) (SFopp y) = SFcompare y x.
Proof.
  destruct x as [sx|sx| |sx mx ex], y as [sy|sy| |sy my ey]; simpl;
    try reflexivity;
    try (destruct sx; reflexivity); try (destruct sy; reflexivity);
    try (destruct sx, sy; reflexivity).
  destruct sx, sy; simpl; try reflexivity.
  - rewrite (Z.compare_antisym ex ey).
    destruct (ex ?= ey) eqn:E; simpl; try reflexivity.
    now rewrite Pos.compare_cont_antisym.
  - rewrite (Z.compare_antisym ex ey).
    destruct (ex ?= ey) eqn:E; simpl; try reflexivity.
    now rewrite Pos.compare_cont_antisym.
Qed.

Lemma leb_opp (x y : float) : (- x <=? - y)%float = (y <=? x)%float.
Proof.
  rewrite !leb_spec, !opp_spec. unfold SFleb. now rewrite SFcompare_opp.
Qed.

Lemma opp_involutive (x : float) : (- - x)%float = x.
Proof.
  apply Prim2SF_inj. rewrite !opp_spec.
  destruct (Prim2SF x) as [s|s| |s m e]; simpl; now rewrite ?negb_involutive.
Qed.

(** *** Clamping and rounding *)

Lemma clamp_bounds (r : float) :
  (1 <=? Py.max 1 (Py.min 35 r))%float = true /\
  (Py.max 1 (Py.min 35 r) <=? 35)%float = true.
Proof.
  unfold Py.min. destruct (r <? 35)%float eqn:Hhi.
  - unfold Py.max. destruct (1 <? r)%float eqn:Hlo.
    + split; now apply ltb_leb.
    + split; reflexivity.
  - split; reflexivity.
Qed.

Lemma round1_inside (x : float) :
  (1 <? Py.round x 1)%float = true ->
  (Py.round x 1 <? 35)%float = true ->
  one_decimal (Py.round x 1).
Proof.
  unfold Py.round.
  change (Z.to_pos (10 ^ Z.of_nat 1)) with 10%positive.
  destruct (Prim2SF x) as [s|s| |s m e] eqn:E.
  - intros H _. rewrite ltb_spec, E in H. destruct s; discriminate.
  - intros H1 H2. rewrite ltb_spec, E in H1, H2. destruct s; discriminate.
  - intros H _. rewrite ltb_spec, E in H. discriminate.
  - cbv zeta. destruct (_ =? 0).
    + intros H _. destruct s; discriminate.
    + intros _ _. eexists. reflexivity.
Qed.

End PyFacts.

(** * Facts about insertion-ordered dicts *)

Module DictFacts.

Section Dict.
Context {V : Type}.
Implicit Types (d : Py.dict V) (k : string) (v : V).

Lemma get_set_same k v d : Py.get k (Py.set k v d) = Some v.
Proof.
  induction d as [|[k' v'] d IH]; simpl.
  - now rewrite String.eqb_refl.
  - destruct (String.eqb k' k) eqn:E; simpl; now rewrite E.
Qed.

Lemma get_set_other k k' v d :
  k <> k' -> Py.get k' (Py.set k v d) = Py.get k' d.
Proof.
  intros Hne. induction d as [|[k0 v0] d IH]; simpl.
  - apply String.eqb_neq in Hne. now rewrite Hne.
  - destruct (String.eqb k0 k) eqn:E; simpl.
    + apply String.eqb_eq in E. subst k0.
      apply String.eqb_neq in Hne. now rewrite Hne.
    + now rewrite IH.
Qed.

Lemma set_set_same k v1 v2 d : Py.set k v2 (Py.set k v1 d) = Py.set k v2 d.
Proof.
  induction d as [|[k' v'] d IH]; simpl.
  - now rewrite String.eqb_refl.
  - destruct (String.eqb k' k) eqn:E; simpl; rewrite E; [reflexivity|].
    now rewrite IH.
Qed.

Lemma set_get_same k v d : Py.get k d = Some v -> Py.set k v d = d.
Proof.
  induction d as [|[k' v'] d IH]; simpl; [discriminate|].
  destruct (String.eqb k' k); intros H.
  - congruence.
  - now rewrite IH.
Qed.

Lemma set_fresh k v d : Py.get k d = None -> Py.set k v d = (d ++ [(k, v)])%list.
Proof.
  induction d as [|[k' v'] d IH]; simpl; [reflexivity|].
  destruct (String.eqb k' k); [discriminate|].
  intros H. now rewrite IH.
Qed.

Lemma get_None k d : Py.get k d = None <-> ~ In k (Py.keys d).
Proof.
  induction d as [|[k' v'] d IH]; simpl.
  - tauto.
  - destruct (String.eqb_spec k' k) as [->|Hne].
    + split; [discriminate|]. intros H. exfalso. apply H. now left.
    + rewrite IH. tauto.
Qed.

Lemma get_app k d1 d2 :
  Py.get k (d1 ++ d2)%list =
  match Py.get k d1 with Some v => Some v | None => Py.get k d2 end.
Proof.
  induction d1 as [|[k' v'] d1 IH]; simpl; [reflexivity|].
  now destruct (String.eqb k' k).
Qed.

Lemma get_In k v d : NoDup (Py.keys d) -> In (k, v) d -> Py.get k d = Some v.
Proof.
  induction d as [|[k' v'] d IH]; simpl; [tauto|].
  intros Hnd [H|H].
  - injection H as -> ->. now rewrite String.eqb_refl.
  - inversion_clear Hnd as [|? ? Hnotin Hnd'].
    destruct (String.eqb_spec k' k) as [->|Hne].
    + exfalso. apply Hnotin. change k with (fst (k, v)). now apply in_map.
    + now apply IH.
Qed.

Lemma In_get k v d : Py.get k d = Some v -> In (k, v) d.
Proof.
  induction d as [|[k' v'] d IH]; simpl; [discriminate|].
  destruct (String.eqb_spec k' k) as [->|Hne].
  - intros H. injection H as ->. now left.
  - intros H. right. now apply IH.
Qed.

End Dict.

End DictFacts.

(** * Facts about the loops *)

Module LoopFacts.

Lemma Some_inj {A} (a b : A) : Some a = Some b -> a = b.
Proof. intros H. now injection H. Qed.

Lemma for_opt_invariant {A B} (P : B -> Prop) (body : B -> A -> option B) :
  forall (xs : list A) (acc out : B),
    P acc ->
    (forall acc x acc', In x xs -> P acc -> body acc x = Some acc' -> P acc') ->
    for_opt xs body acc = Some out -> P out.
Proof.
  induction xs as [|x xs IH]; simpl; intros acc out Hacc Hstep Hrun.
  - now injection Hrun as <-.
  - destruct (body acc x) as [acc'|] eqn:E; [|discriminate].
    apply (IH acc' out); eauto.
Qed.

(** A loop whose turn appends a computed block. *)
Lemma for_opt_blocks {A B} (body : list B -> A -> option (list B))
    (g : A -> list B) :
  forall (xs : list A) (acc : list B),
    (forall acc x, In x xs -> body acc x = Some (acc ++ g x)%list) ->
    for_opt xs body acc = Some (acc ++ flat_map g xs)%list.
Proof.
  induction xs as [|x xs IH]; simpl; intros acc Hb.
  - now rewrite app_nil_r.
  - rewrite (Hb acc x) by now left.
    rewrite IH by (intros; apply Hb; now right).
    now rewrite <- app_assoc.
Qed.

End LoopFacts.

(** * The generator *)

Module GeneratorFacts.

Section Run.

Variable St : Type.
Variable normal : float -> float -> St -> float * St.
Variable uniform : float -> float -> St -> float * St.

Local Abbreviation year_value' := (year_value St normal uniform).
Local Abbreviation year_body' := (year_body St normal uniform).
Local Abbreviation radio_body' := (radio_body St normal uniform).
Local Abbreviation stored_by' := (stored_by St normal uniform).
Local Abbreviation station_series' := (station_series St normal uniform).

Lemma bind_Some {A B} (m : Rand.M St A) (f : A -> Rand.M St B) s a s1 :
  m s = Some (a, s1) -> Rand.bind m f s = f a s1.
Proof. unfold Rand.bind. now intros ->. Qed.

(** Drawing never raises: the value of a year is always produced. *)
Lemma special_event_total year value s :
  exists v s', special_event St uniform year value s = Some (v, s').
Proof.
  unfold special_event, Rand.bind, Rand.draw, Rand.ret.
  destruct (year =? 2008); [destruct (uniform _ _ s); eauto|].
  destruct (year =? 2020); [destruct (uniform _ _ s); eauto|].
  destruct (year =? 2021); [destruct (uniform _ _ s); eauto|].
  eauto.
Qed.

Lemma year_value_total b t vol start year s :
  exists v s', year_value' b t vol start year s = Some (v, s').
Proof.
  unfold year_value, raw_value, Rand.bind, Rand.draw, Rand.ret.
  destruct (normal 0 vol s) as [n s1].
  destruct (special_event_total year
              (b + t * Py.float_of_int (year - start) + n)%float s1)
    as (v & s2 & ->).
  eauto.
Qed.

(** The loop over the years appends, to the series of [radio], one item per
    year that is not skipped. *)
Lemma year_loop radio b t vol start :
  forall (ys : list Z) ad s series0,
    Py.get radio ad = Some series0 ->
    NoDup ys ->
    (forall y, In y ys -> Py.get (Py.str y) series0 = None) ->
    exists entries s',
      Rand.for_each ys (year_body' radio b t vol start) ad s
      = Some (Py.set radio (series0 ++ entries)%list ad, s') /\
      Forall2 (stored_by' b t vol start)
        (filter (fun y => negb (y <? start)) ys) entries.
Proof.
  induction ys as [|y ys IH]; intros ad s series0 Hget Hnd Hfresh.
  - exists [], s. split; [|constructor].
    simpl. rewrite app_nil_r, DictFacts.set_get_same by assumption.
    reflexivity.
  - inversion_clear Hnd as [|? ? Hy Hnd'].
    simpl. unfold year_body at 1.
    destruct (y <? start) eqn:Hskip; simpl.
    + unfold Rand.bind, Rand.ret.
      apply IH; auto. intros; apply Hfresh; now right.
    + destruct (year_value_total b t vol start y s) as (v & s1 & Hv).
      set (series1 := (series0 ++ [(Py.str y, v)])%list).
      destruct (IH (Py.set radio series1 ad) s1 series1)
        as (entries & s' & Hrun & Hall).
      * apply DictFacts.get_set_same.
      * assumption.
      * intros y' Hy'. unfold series1. rewrite DictFacts.get_app.
        rewrite Hfresh by now right. simpl.
        destruct (String.eqb_spec (Py.str y) (Py.str y')) as [E|_];
          [|reflexivity].
        apply PyFacts.str_inj in E. subst y'. contradiction.
      * exists ((Py.str y, v) :: entries), s'. split.
        -- unfold Rand.bind at 1.
           rewrite (bind_Some _ _ _ _ _ Hv). unfold Rand.item at 1.
           rewrite (bind_Some _ _ s1 series0 s1) by now rewrite Hget.
           unfold Rand.ret at 1. cbv beta iota.
           rewrite (DictFacts.set_fresh (Py.str y) v series0)
             by (apply Hfresh; now left).
           fold series1. etransitivity; [exact Hrun|].
           rewrite DictFacts.set_set_same. unfold series1.
           now rewrite <- app_assoc.
        -- constructor; [|assumption].
           split; [reflexivity|]. simpl. eauto.
Qed.

Lemma skipped_years radio :
  filter (fun y => negb (y <? start_year_of radio)) (Py.range 2002 2026)
  = Py.range (start_year_of radio) 2026.
Proof. unfold start_year_of. now destruct (String.eqb radio "Hit West"). Qed.

Lemma for_each_cons {A B} (x : A) xs (body : B -> A -> Rand.M St B) acc s :
  Rand.for_each (x :: xs) body acc s
  = match body acc x s with
    | Some (acc', s1) => Rand.for_each xs body acc' s1
    | None => None
    end.
Proof. reflexivity. Qed.

Lemma radio_body_params ad radio params s b t vol :
  Py.get (Py.str (start_year_of radio)) params = Some b ->
  Py.get "trend" params = Some t ->
  Py.get "volatility" params = Some vol ->
  radio_body' ad (radio, params) s
  = Rand.for_each (Py.range 2002 2026)
      (year_body' radio b t vol (start_year_of radio)) (Py.set radio [] ad) s.
Proof.
  intros Hb Ht Hvol. unfold radio_body, Rand.bind, Rand.item.
  now rewrite Hb, Ht, Hvol.
Qed.

(** The loop over the stations appends one series per station. *)
Lemma radio_loop :
  forall (ts : Py.dict (Py.dict float)) ad s,
    NoDup (Py.keys ts) ->
    (forall r, In r (Py.keys ts) -> Py.get r ad = None) ->
    Forall (fun entry => has_params entry = true) ts ->
    exists out s',
      Rand.for_each ts radio_body' ad s = Some ((ad ++ out)%list, s') /\
      Forall2 station_series' ts out.
Proof.
  induction ts as [|[radio params] ts IH]; intros ad s Hnd Hfresh Hwf.
  - exists [], s. split; [|constructor]. simpl. now rewrite app_nil_r.
  - inversion_clear Hnd as [|? ? Hr Hnd'].
    inversion_clear Hwf as [|? ? Hp Hwf'].
    unfold has_params in Hp.
    destruct (Py.get (Py.str (start_year_of radio)) params) as [b|] eqn:Hb;
      [|discriminate].
    destruct (Py.get "trend" params) as [t|] eqn:Ht; [|discriminate].
    destruct (Py.get "volatility" params) as [vol|] eqn:Hvol; [|discriminate].
    assert (Hnew : Py.get radio ad = None) by (apply Hfresh; now left).
    destruct (year_loop radio b t vol (start_year_of radio)
                (Py.range 2002 2026) (Py.set radio [] ad) s [])
      as (entries & s1 & Hrun & Hall).
    { apply DictFacts.get_set_same. }
    { apply PyFacts.NoDup_range. }
    { reflexivity. }
    rewrite skipped_years in Hall.
    assert (Hres : Py.set radio ([] ++ entries)%list (Py.set radio [] ad)
                   = (ad ++ [(radio, entries)])%list).
    { change ([] ++ entries)%list with entries.
      rewrite DictFacts.set_set_same. now apply DictFacts.set_fresh. }
    rewrite Hres in Hrun. clear Hres.
    destruct (IH (ad ++ [(radio, entries)])%list s1) as (out & s' & Hrest & Hout).
    { assumption. }
    { intros r Hin. rewrite DictFacts.get_app, Hfresh by now right.
      simpl. destruct (String.eqb_spec radio r) as [->|_]; [|reflexivity].
      contradiction. }
    { assumption. }
    exists ((radio, entries) :: out), s'. split.
    + rewrite for_each_cons, (radio_body_params _ _ _ _ b t vol) by assumption.
      etransitivity; [|etransitivity; [exact Hrest|]].
      * now rewrite Hrun.
      * now rewrite <- app_assoc.
    + constructor; [|assumption].
      split; [reflexivity|]. exists b, t, vol. simpl. auto.
Qed.

Lemma trends_keys_NoDup : NoDup (Py.keys trends).
Proof.
  unfold trends, Py.keys; simpl map.
  repeat (apply NoDup_cons; [simpl; intuition discriminate|]).
  apply NoDup_nil.
Qed.

Lemma trends_have_params : Forall (fun entry => has_params entry = true) trends.
Proof. repeat constructor. Qed.

(** The generator never raises, and leaves one series per [trends] item. *)
Lemma generated_shape (s : St) :
  exists data s',
    _create_realistic_audience_data St normal uniform s = Some (data, s') /\
    Forall2 station_series' trends data.
Proof.
  destruct (radio_loop trends [] s trends_keys_NoDup) as (out & s' & Hrun & H).
  - reflexivity.
  - apply trends_have_params.
  - exists out, s'. split; assumption.
Qed.

End Run.

End GeneratorFacts.

(** * Reading a generated [audience_data] *)

Module ShapeFacts.

Lemma Forall2_In_l {A B} (R : A -> B -> Prop) (xs : list A) (ys : list B) x :
  Forall2 R xs ys -> In x xs -> exists y, In y ys /\ R x y.
Proof.
  induction 1 as [|x' y' xs ys Hxy _ IH]; simpl; [tauto|].
  intros [<-|Hin].
  - exists y'. auto.
  - destruct (IH Hin) as (y & Hy & HR). exists y. auto.
Qed.

Lemma Forall2_In_r {A B} (R : A -> B -> Prop) (xs : list A) (ys : list B) y :
  Forall2 R xs ys -> In y ys -> exists x, In x xs /\ R x y.
Proof.
  induction 1 as [|x' y' xs ys Hxy _ IH]; simpl; [tauto|].
  intros [<-|Hin].
  - exists x'. auto.
  - destruct (IH Hin) as (x & Hx & HR). exists x. auto.
Qed.

Lemma NoDup_map_str (ys : list Z) : NoDup ys -> NoDup (map Py.str ys).
Proof.
  intros H. apply Injective_map_NoDup; [|assumption].
  intros a b. apply PyFacts.str_inj.
Qed.

Section Read.

Variable St : Type.
Variable normal : float -> float -> St -> float * St.
Variable uniform : float -> float -> St -> float * St.

Local Abbreviation stored_by' := (stored_by St normal uniform).
Local Abbreviation station_series' := (station_series St normal uniform).

Lemma series_keys b t vol start ys series :
  Forall2 (stored_by' b t vol start) ys series ->
  Py.keys series = map Py.str ys.
Proof.
  induction 1 as [|y e ys series [He _] _ IH]; simpl; [reflexivity|].
  now rewrite He, IH.
Qed.

Lemma data_keys ts out :
  Forall2 station_series' ts out -> Py.keys out = Py.keys ts.
Proof.
  induction 1 as [|e o ts out [Ho _] _ IH]; simpl; [reflexivity|].
  now rewrite Ho, IH.
Qed.

(** The series of a station is found under its name. *)
Lemma station_lookup ts out entry :
  Forall2 station_series' ts out ->
  NoDup (Py.keys ts) ->
  In entry ts ->
  exists series,
    Py.get (fst entry) out = Some series /\
    station_series' entry (fst entry, series).
Proof.
  intros Hall Hnd Hin.
  destruct (Forall2_In_l _ _ _ _ Hall Hin) as ([r series] & Ho & Hs).
  assert (Hr : r = fst entry) by apply Hs. subst r.
  exists series. split; [|assumption].
  apply DictFacts.get_In; [|assumption].
  now rewrite (data_keys _ _ Hall).
Qed.

(** The value of a covered year is found under [str(year)]. *)
Lemma year_lookup b t vol start ys series y :
  Forall2 (stored_by' b t vol start) ys series ->
  NoDup ys ->
  In y ys ->
  exists v s0 s1,
    Py.get (Py.str y) series = Some v /\
    year_value St normal uniform b t vol start y s0 = Some (v, s1).
Proof.
  intros Hall Hnd Hin.
  destruct (Forall2_In_l _ _ _ _ Hall Hin) as ([k v] & He & Hk & s0 & s1 & Hv).
  simpl in Hk, Hv. subst k.
  exists v, s0, s1. split; [|assumption].
  apply DictFacts.get_In; [|assumption].
  rewrite (series_keys _ _ _ _ _ _ Hall). now apply NoDup_map_str.
Qed.

(** A stored value went through [clamp_round]. *)
Lemma year_value_clamped b t vol start y s0 v s1 :
  year_value St normal uniform b t vol start y s0 = Some (v, s1) ->
  exists raw,
    raw_value St normal uniform b t vol start y s0 = Some (raw, s1) /\
    v = clamp_round raw.
Proof.
  unfold year_value, Rand.bind at 1.
  destruct (raw_value St normal uniform b t vol start y s0) as [[raw s]|];
    [|discriminate].
  unfold Rand.ret. intros H. injection H as <- <-. eauto.
Qed.

End Read.

Lemma clamp_round_bounds (raw : float) :
  (1 <=? clamp_round raw)%float = true /\
  (clamp_round raw <=? 35)%float = true /\
  one_decimal (clamp_round raw).
Proof.
  unfold clamp_round.
  destruct (PyFacts.clamp_bounds (Py.round raw 1)) as [Hlo Hhi].
  repeat split; try assumption.
  unfold Py.min, Py.max.
  destruct (Py.round raw 1 <? 35)%float eqn:H35.
  - destruct (1 <? Py.round raw 1)%float eqn:H1.
    + now apply PyFacts.round1_inside.
    + exists 10. reflexivity.
  - change (1 <? 35)%float with true. cbv iota. exists 350. reflexivity.
Qed.

End ShapeFacts.

(** * Properties of the generated series *)

(** Claim C1. For every station of [trends] and every year from the start
    year of the station to 2025, whatever the random source draws, the
    generator returns and the value it stored for that year lies in the
    closed interval [1.0, 35.0] and is the double closest to a whole number
    of tenths, that is, it is rounded to one decimal place. *)
Theorem audience_value_in_bounds :
  forall (St : Type) (normal uniform : float -> float -> St -> float * St)
         (s : St),
  exists data s',
    _create_realistic_audience_data St normal uniform s = Some (data, s') /\
    forall radio params year,
      In (radio, params) trends ->
      start_year_of radio <= year <= 2025 ->
      exists v,
        stored_value data radio year = Some v /\
        (1 <=? v)%float = true /\ (v <=? 35)%float = true /\ one_decimal v.
Proof.
  intros St normal uniform s.
  destruct (GeneratorFacts.generated_shape St normal uniform s)
    as (data & s' & Hrun & Hshape).
  exists data, s'. split; [assumption|].
  intros radio params year Hin Hyear.
  destruct (ShapeFacts.station_lookup _ _ _ _ _ _ Hshape
              GeneratorFacts.trends_keys_NoDup Hin)
    as (series & Hget & _ & b & t & vol & _ & _ & _ & Hseries).
  simpl in Hget, Hseries.
  destruct (ShapeFacts.year_lookup _ _ _ _ _ _ _ _ _ year Hseries)
    as (v & s0 & s1 & Hv & Hval).
  { apply PyFacts.NoDup_range. }
  { apply PyFacts.in_range. lia. }
  exists v. unfold stored_value. rewrite Hget. split; [assumption|].
  destruct (ShapeFacts.year_value_clamped _ _ _ _ _ _ _ _ _ _ _ Hval)
    as (raw & _ & ->).
  apply ShapeFacts.clamp_round_bounds.
Qed.

(** Claim C2. For every station, the years for which a value is generated
    are exactly the contiguous inclusive range from the start year of the
    station (2005 for 'Hit West', the seventh of the eight stations, and 2002
    for every other one) through 2025: the keys of its series are the
    [str] of these years, in order, with no gap and no duplicate key. *)
Theorem covered_years_contiguous :
  forall (St : Type) (normal uniform : float -> float -> St -> float * St)
         (s : St),
  exists data s',
    _create_realistic_audience_data St normal uniform s = Some (data, s') /\
    Py.keys data = Py.keys trends /\
    map start_year_of (Py.keys trends)
    = [2002; 2002; 2002; 2002; 2002; 2002; 2005; 2002] /\
    forall radio,
      In radio (Py.keys trends) ->
      exists series,
        Py.get radio data = Some series /\
        Py.keys series = map Py.str (Py.range (start_year_of radio) 2026) /\
        years_of series = map Some (Py.range (start_year_of radio) 2026) /\
        NoDup (Py.keys series) /\
        forall year,
          (exists v, Py.get (Py.str year) series = Some v)
          <-> start_year_of radio <= year <= 2025.
Proof.
  intros St normal uniform s.
  destruct (GeneratorFacts.generated_shape St normal uniform s)
    as (data & s' & Hrun & Hshape).
  exists data, s'. split; [assumption|].
  split; [now apply ShapeFacts.data_keys with (1 := Hshape)|].
  split; [reflexivity|].
  intros radio Hin. apply in_map_iff in Hin.
  destruct Hin as ([radio' params] & Hfst & Hin). simpl in Hfst. subst radio'.
  destruct (ShapeFacts.station_lookup _ _ _ _ _ _ Hshape
              GeneratorFacts.trends_keys_NoDup Hin)
    as (series & Hget & _ & b & t & vol & _ & _ & _ & Hseries).
  simpl in Hget, Hseries.
  pose proof (ShapeFacts.series_keys _ _ _ _ _ _ _ _ _ Hseries) as Hkeys.
  exists series. split; [assumption|]. split; [assumption|].
  split; [|split].
  - unfold years_of. rewrite Hkeys, map_map.
    apply map_ext. intros y. apply PyFacts.int_str.
  - rewrite Hkeys. apply ShapeFacts.NoDup_map_str, PyFacts.NoDup_range.
  - intros year. split.
    + intros (v & Hv). apply DictFacts.In_get in Hv.
      apply (in_map fst) in Hv. simpl in Hv.
      change (map fst series) with (Py.keys series) in Hv.
      rewrite Hkeys in Hv. apply in_map_iff in Hv.
      destruct Hv as (y & Hy & Hrange).
      apply PyFacts.str_inj in Hy. subst y.
      apply PyFacts.in_range in Hrange. lia.
    + intros Hyear.
      destruct (ShapeFacts.year_lookup _ _ _ _ _ _ _ _ _ year Hseries)
        as (v & _ & _ & Hv & _).
      * apply PyFacts.NoDup_range.
      * apply PyFacts.in_range. lia.
      * eauto.
Qed.

(** * The scenario without noise *)

Module ScenarioFacts.

(** Without noise, the values of 2002, 2003 and 2010 of a station with
    baseline 28.5, slope -0.25 and start year 2002 do not depend on the
    random source: none of these years has a special event. *)
Lemma quiet_year_values (St : Type)
    (uniform : float -> float -> St -> float * St) (vol : float) (s : St) :
  year_value St zero_normal uniform 28.5 (-0.25) vol 2002 2002 s
  = Some (28.5%float, s) /\
  year_value St zero_normal uniform 28.5 (-0.25) vol 2002 2003 s
  = Some (28.2%float, s) /\
  year_value St zero_normal uniform 28.5 (-0.25) vol 2002 2010 s
  = Some (26.5%float, s).
Proof. repeat split; vm_compute; reflexivity. Qed.

End ScenarioFacts.

(** Claim C3, as stated, fails on the code: with the noise forced to zero
    and the shocks disabled, the value stored for 2003 for the station with
    baseline 28.5 and slope -0.25 is not 28.3. *)
Lemma scenario_2003_is_not_28_3 :
  match _create_realistic_audience_data unit zero_normal zero_uniform tt with
  | Some (data, _) => stored_value data "Réunion 1ère" 2003
  | None => None
  end <> Some 28.3%float.
Proof.
  intros H. apply (f_equal (option_map Prim2SF)) in H.
  vm_compute in H. discriminate H.
Qed.

(** Claim C3, amended. With the noise forced to zero, whatever the shocks
    are, the station with baseline 28.5, slope -0.25 and start year 2002
    gets 28.5 for 2002, 28.2 for 2003 (28.25 is a tie between 28.2 and 28.3,
    and [round] takes the even last digit) and 26.5 for 2010, each within
    [1.0, 35.0]; this holds of the values computed by lines 59-75 and of
    the values the generator stores for 'Réunion 1ère'. *)
Theorem zero_noise_scenario :
  forall (St : Type) (uniform : float -> float -> St -> float * St) (s : St),
    (forall vol s0,
        year_value St zero_normal uniform 28.5 (-0.25) vol 2002 2002 s0
        = Some (28.5%float, s0) /\
        year_value St zero_normal uniform 28.5 (-0.25) vol 2002 2003 s0
        = Some (28.2%float, s0) /\
        year_value St zero_normal uniform 28.5 (-0.25) vol 2002 2010 s0
        = Some (26.5%float, s0)) /\
    (exists data s',
        _create_realistic_audience_data St zero_normal uniform s
        = Some (data, s') /\
        stored_value data "Réunion 1ère" 2002 = Some 28.5%float /\
        stored_value data "Réunion 1ère" 2003 = Some 28.2%float /\
        stored_value data "Réunion 1ère" 2010 = Some 26.5%float) /\
    Forall (fun v => (1 <=? v)%float = true /\ (v <=? 35)%float = true)
      [28.5; 28.2; 26.5]%float.
Proof.
  intros St uniform s. split; [|split].
  - intros vol s0. apply ScenarioFacts.quiet_year_values.
  - destruct (GeneratorFacts.generated_shape St zero_normal uniform s)
      as (data & s' & Hrun & Hshape).
    exists data, s'. split; [assumption|].
    destruct (ShapeFacts.station_lookup _ _ _ _ _ _ Hshape
                GeneratorFacts.trends_keys_NoDup (or_introl eq_refl))
      as (series & Hget & _ & b & t & vol & Hb & Ht & _ & Hseries).
    simpl in Hget, Hseries. vm_compute in Hb, Ht.
    apply LoopFacts.Some_inj in Hb, Ht. subst b t.
    unfold stored_value. rewrite Hget.
    assert (Hyear : forall y v,
               2002 <= y <= 2025 ->
               (forall s0, year_value St zero_normal uniform 28.5 (-0.25) vol
                             2002 y s0 = Some (v, s0)) ->
               Py.get (Py.str y) series = Some v).
    { intros y v Hy Hval.
      destruct (ShapeFacts.year_lookup _ _ _ _ _ _ _ _ _ y Hseries)
        as (v' & s0 & s1 & Hv & Hval').
      - apply PyFacts.NoDup_range.
      - apply PyFacts.in_range.
        change (start_year_of "Réunion 1ère") with 2002. lia.
      - change (start_year_of "Réunion 1ère") with 2002 in Hval'.
        rewrite Hval in Hval'. apply LoopFacts.Some_inj in Hval'.
        apply (f_equal fst) in Hval'. simpl in Hval'. now subst v'. }
    repeat split; apply Hyear; try lia;
      intros s0; apply (ScenarioFacts.quiet_year_values St uniform vol s0).
  - repeat constructor.
Qed.

(** * The value before clamping and rounding *)

Module RawFacts.

(** Adding the opposite is subtracting. *)
Lemma add_opp (x a : float) : (x + - a)%float = (x - a)%float.
Proof.
  apply Prim2SF_inj. rewrite add_spec, sub_spec, opp_spec.
  unfold SF64add, SF64sub.
  destruct (Prim2SF x) as [sx|sx| |sx mx ex],
           (Prim2SF a) as [sa|sa| |sa ma ea]; simpl;
    try reflexivity;
    destruct sx, sa; reflexivity.
Qed.

Lemma low_uniform_in_range (St : Type) : uniform_in_range (@low_uniform St).
Proof.
  intros low high s H. simpl. split; [|assumption].
  now apply PyFacts.leb_refl_of_leb with high.
Qed.

Section Raw.

Variable St : Type.
Variable normal : float -> float -> St -> float * St.
Variable uniform : float -> float -> St -> float * St.
Hypothesis uniform_range : uniform_in_range uniform.

Lemma special_event_shock year pre s1 raw s2 :
  special_event St uniform year pre s1 = Some (raw, s2) ->
  shock_applied uniform year s1 pre raw.
Proof.
  unfold special_event, shock_applied, Rand.bind, Rand.draw, Rand.ret.
  destruct (year =? 2008).
  { destruct (uniform_range (-2)%float (-1)%float s1 eq_refl) as [Hlo Hhi].
    destruct (uniform (-2) (-1) s1) as [u s']. simpl in *.
    intros H. apply LoopFacts.Some_inj in H.
    apply (f_equal fst) in H. simpl in H. subst raw.
    exists (- u)%float. repeat split.
    - change 1%float with (- (-1))%float. now rewrite PyFacts.leb_opp.
    - change 2%float with (- (-2))%float. now rewrite PyFacts.leb_opp.
    - now rewrite PyFacts.opp_involutive.
    - now rewrite <- add_opp, PyFacts.opp_involutive. }
  destruct (year =? 2020).
  { destruct (uniform_range 2%float 4%float s1 eq_refl) as [Hlo Hhi].
    destruct (uniform 2 4 s1) as [u s']. simpl in *.
    intros H. apply LoopFacts.Some_inj in H.
    apply (f_equal fst) in H. simpl in H. subst raw.
    exists u. auto. }
  destruct (year =? 2021).
  { destruct (uniform_range (-1)%float 1%float s1 eq_refl) as [Hlo Hhi].
    destruct (uniform (-1) 1 s1) as [u s']. simpl in *.
    intros H. apply LoopFacts.Some_inj in H.
    apply (f_equal fst) in H. simpl in H. subst raw.
    exists u. auto. }
  intros H. apply LoopFacts.Some_inj in H.
  apply (f_equal fst) in H. simpl in H. now subst raw.
Qed.

(** Lines 59-72 compute the linear trend, add one draw of
    [normal(0, volatility)], then apply the shock of the year. *)
Lemma raw_value_formula b t vol start year s0 raw s2 :
  raw_value St normal uniform b t vol start year s0 = Some (raw, s2) ->
  exists noise s1,
    normal 0 vol s0 = (noise, s1) /\
    shock_applied uniform year s1
      (b + t * Py.float_of_int (year - start) + noise)%float raw.
Proof.
  unfold raw_value, Rand.bind, Rand.draw.
  destruct (normal 0 vol s0) as [noise s1]. intros H.
  exists noise, s1. split; [reflexivity|].
  now apply special_event_shock with s2.
Qed.

End Raw.

End RawFacts.

(** * The table of [get_all_data] *)

Module TableFacts.

(** A loop that appends one row per turn. *)
Lemma for_opt_rows {A B} (body : list B -> A -> option (list B)) (g : A -> B) :
  forall (xs : list A) (acc : list B),
    (forall acc x, In x xs -> body acc x = Some (acc ++ [g x])%list) ->
    for_opt xs body acc = Some (acc ++ map g xs)%list.
Proof.
  induction xs as [|x xs IH]; simpl; intros acc Hb.
  - now rewrite app_nil_r.
  - rewrite (Hb acc x) by now left.
    rewrite IH by (intros; apply Hb; now right).
    now rewrite <- app_assoc.
Qed.

(** When no row raises, the table holds the rows of every series in order. *)
Lemma get_all_data_rows (self : ReunionRadioAnalyzer) :
  (forall radio series key audience,
      In (radio, series) (audience_data self) ->
      In (key, audience) series ->
      flat_record self radio key audience = Some (row_for radio key audience)) ->
  get_all_data self = Some (rows_for (audience_data self)).
Proof.
  intros Hrow. unfold get_all_data, rows_for.
  apply (LoopFacts.for_opt_blocks _
           (fun item => map (fun e => row_for (fst item) (fst e) (snd e))
                            (snd item))
           (audience_data self) []).
  intros acc [radio series] Hin. simpl.
  apply (for_opt_rows _ (fun e => row_for radio (fst e) (snd e))).
  intros acc' [key audience] Hin'. simpl.
  now rewrite (Hrow radio series key audience).
Qed.

(** Every row of a table carries the registry attributes of its station. *)
Lemma rows_match_registry (self : ReunionRadioAnalyzer) rows :
  get_all_data self = Some rows ->
  Forall (fun row =>
            exists info,
              Py.get (Radio row) (radios self) = Some info /\
              Type_ row = type info /\
              Lancement row = lancement info /\
              Couleur row = couleur info) rows.
Proof.
  unfold get_all_data.
  apply LoopFacts.for_opt_invariant; [constructor|].
  intros acc [radio series] acc' _ Hacc.
  apply LoopFacts.for_opt_invariant; [assumption|].
  intros acc1 [key audience] acc2 _ Hacc1.
  unfold flat_record.
  destruct (Py.get radio (radios self)) as [info|] eqn:Hinfo; [|discriminate].
  destruct (Py.int key) as [y|]; [|discriminate].
  intros H. apply LoopFacts.Some_inj in H. subst acc2.
  apply Forall_app. split; [assumption|].
  constructor; [|constructor]. exists info. simpl. auto.
Qed.

Lemma registry_keys : Py.keys radios_registry = Py.keys trends.
Proof. reflexivity. Qed.

Lemma registered_info radio :
  In radio (Py.keys trends) ->
  Py.get radio radios_registry = Some (info_of radio).
Proof.
  intros Hin. unfold info_of.
  destruct (Py.get radio radios_registry) eqn:E; [reflexivity|].
  apply DictFacts.get_None in E. now rewrite registry_keys in E.
Qed.

Lemma start_year_bounds radio : 2002 <= start_year_of radio <= 2005.
Proof. unfold start_year_of. destruct (String.eqb _ _); lia. Qed.

Lemma range_sorted (lo hi : Z) : StronglySorted Z.lt (Py.range lo hi).
Proof.
  unfold Py.range. generalize (Z.to_nat (hi - lo)) as n. generalize 0%nat as a.
  intros a n. revert a.
  induction n as [|n IH]; intros a; simpl; constructor.
  - apply IH.
  - apply Forall_forall. intros y Hy. apply in_map_iff in Hy.
    destruct Hy as (i & <- & Hi). apply in_seq in Hi. lia.
Qed.

Section Table.

Variable St : Type.
Variable normal : float -> float -> St -> float * St.
Variable uniform : float -> float -> St -> float * St.

Local Abbreviation station_series' := (station_series St normal uniform).

(** [__init__] then [get_all_data] never raise, and the table is made of the
    rows of the generated series. *)
Lemma generated_table (s : St) :
  exists self s',
    init St normal uniform s = Some (self, s') /\
    radios self = radios_registry /\
    _create_realistic_audience_data St normal uniform s
    = Some (audience_data self, s') /\
    Forall2 station_series' trends (audience_data self) /\
    get_all_data self = Some (rows_for (audience_data self)).
Proof.
  destruct (GeneratorFacts.generated_shape St normal uniform s)
    as (data & s' & Hrun & Hshape).
  exists {| radios := radios_registry; audience_data := data |}, s'.
  split; [|split; [reflexivity|split; [assumption|split; [assumption|]]]].
  - unfold init, Rand.bind. now rewrite Hrun.
  - apply get_all_data_rows. simpl.
    intros radio series key audience Hin Hin'.
    destruct (ShapeFacts.Forall2_In_r _ _ _ _ Hshape Hin)
      as ([radio' params] & Hts & Hr & b & t & vol & _ & _ & _ & Hseries).
    simpl in Hr, Hseries. subst radio'.
    destruct (ShapeFacts.Forall2_In_r _ _ _ _ Hseries Hin')
      as (y & _ & Hkey & _).
    simpl in Hkey. subst key.
    unfold flat_record, row_for. cbn [radios].
    rewrite registered_info, PyFacts.int_str; [reflexivity|].
    change radio with (fst (radio, params)). now apply in_map.
Qed.

(** The stations and years of the rows, in order. *)
Lemma rows_stations_years ts data :
  Forall2 station_series' ts data ->
  map (fun row => (Radio row, Annee row)) (rows_for data)
  = flat_map (fun radio => map (pair radio)
                               (Py.range (start_year_of radio) 2026))
             (Py.keys ts).
Proof.
  unfold rows_for.
  induction 1 as [|[radio params] [radio' series] ts data Hs _ IH];
    [reflexivity|].
  destruct Hs as (Hr & b & t & vol & _ & _ & _ & Hseries).
  simpl in Hr, Hseries. subst radio'.
  simpl. rewrite map_app, IH. f_equal.
  rewrite map_map. simpl.
  clear IH. induction Hseries as [|y [k v] ys series [Hk _] _ IH];
    [reflexivity|].
  simpl in Hk. subst k. simpl. now rewrite PyFacts.int_str, IH.
Qed.

Lemma rows_count ts data :
  Forall2 station_series' ts data ->
  Z.of_nat (List.length (rows_for data)) = expected_count (Py.keys ts).
Proof.
  intros H.
  rewrite <- (length_map (fun row => (Radio row, Annee row))).
  rewrite (rows_stations_years _ _ H).
  unfold expected_count. generalize (Py.keys ts) as stations.
  induction stations as [|radio stations IH]; [reflexivity|].
  cbn [flat_map map fold_right].
  rewrite length_app, length_map, Nat2Z.inj_add, IH.
  rewrite PyFacts.length_range.
  pose proof (start_year_bounds radio). lia.
Qed.

End Table.

End TableFacts.

(** * Properties of the accessors *)

(** Claim C5. Flattening the generated per-station year maps never raises
    and produces a list of rows whose length is the sum, over all stations,
    of (2025 - start_year + 1); with the fixed registries, seven stations
    starting in 2002 and one in 2005, this is 189 rows. *)
Theorem flat_record_count :
  forall (St : Type) (normal uniform : float -> float -> St -> float * St)
         (s : St),
  exists self s' rows,
    init St normal uniform s = Some (self, s') /\
    get_all_data self = Some rows /\
    Z.of_nat (List.length rows) = expected_count (Py.keys trends) /\
    expected_count (Py.keys trends) = 189 /\
    List.length rows = 189%nat /\
    List.length (filter (fun radio => start_year_of radio =? 2002)
                        (Py.keys trends)) = 7%nat /\
    List.length (filter (fun radio => start_year_of radio =? 2005)
                        (Py.keys trends)) = 1%nat.
Proof.
  intros St normal uniform s.
  destruct (TableFacts.generated_table St normal uniform s)
    as (self & s' & Hinit & _ & _ & Hshape & Hrows).
  exists self, s', (rows_for (audience_data self)).
  pose proof (TableFacts.rows_count _ _ _ _ _ Hshape) as Hcount.
  assert (Hsum : expected_count (Py.keys trends) = 189) by reflexivity.
  repeat split; try assumption; try reflexivity.
  rewrite Hsum in Hcount. lia.
Qed.

(** Claim C6. For every row of the table built by [get_all_data] on the
    generated data, the category (Type), the display color (Couleur) and the
    launch year (Lancement) are the attributes that the static registry
    stores for the station of the row. *)
Theorem flat_records_match_registry :
  forall (St : Type) (normal uniform : float -> float -> St -> float * St)
         (s : St),
  exists self s' rows,
    init St normal uniform s = Some (self, s') /\
    get_all_data self = Some rows /\
    forall row,
      In row rows ->
      exists info,
        Py.get (Radio row) radios_registry = Some info /\
        Type_ row = type info /\
        Couleur row = couleur info /\
        Lancement row = lancement info.
Proof.
  intros St normal uniform s.
  destruct (TableFacts.generated_table St normal uniform s)
    as (self & s' & Hinit & Hreg & _ & _ & Hrows).
  exists self, s', (rows_for (audience_data self)).
  split; [assumption|]. split; [assumption|].
  intros row Hin.
  pose proof (TableFacts.rows_match_registry self _ Hrows) as Hall.
  rewrite Forall_forall in Hall.
  destruct (Hall row Hin) as (info & Hget & Htype & Hlaunch & Hcolor).
  rewrite Hreg in Hget. exists info. auto.
Qed.

(** Claim C9. [get_radio_data] never fails: for a name that is not in the
    generated data, and so for any name absent from the static registry, it
    returns the empty mapping; for a registered station it returns the
    mapping stored for that station, which holds every year from the start
    year of the station through 2025. *)
Theorem get_radio_data_total :
  forall (St : Type) (normal uniform : float -> float -> St -> float * St)
         (s : St),
  exists self s',
    init St normal uniform s = Some (self, s') /\
    (forall name,
        Py.get name (audience_data self) = None ->
        get_radio_data self name = []) /\
    (forall name,
        ~ In name (Py.keys radios_registry) ->
        get_radio_data self name = []) /\
    (forall name,
        In name (Py.keys radios_registry) ->
        Py.get name (audience_data self) = Some (get_radio_data self name) /\
        Py.keys (get_radio_data self name)
        = map Py.str (Py.range (start_year_of name) 2026)).
Proof.
  intros St normal uniform s.
  destruct (TableFacts.generated_table St normal uniform s)
    as (self & s' & Hinit & _ & _ & Hshape & _).
  exists self, s'. split; [assumption|].
  assert (Hmiss : forall name,
             Py.get name (audience_data self) = None ->
             get_radio_data self name = []).
  { intros name H. unfold get_radio_data. now rewrite H. }
  split; [assumption|]. split.
  - intros name Hout. apply Hmiss. apply DictFacts.get_None.
    now rewrite (ShapeFacts.data_keys _ _ _ _ _ Hshape),
      <- TableFacts.registry_keys.
  - intros name Hin. rewrite TableFacts.registry_keys in Hin.
    apply in_map_iff in Hin.
    destruct Hin as ([radio params] & Hfst & Hin). simpl in Hfst. subst radio.
    destruct (ShapeFacts.station_lookup _ _ _ _ _ _ Hshape
                GeneratorFacts.trends_keys_NoDup Hin)
      as (series & Hget & _ & b & t & vol & _ & _ & _ & Hseries).
    simpl in Hget, Hseries.
    unfold get_radio_data. rewrite Hget. split; [reflexivity|].
    now apply ShapeFacts.series_keys with (1 := Hseries).
Qed.

(** Claim C10. The rows of the table are ordered: they are grouped by
    station, the groups follow the insertion order of the registry, and
    inside the group of a station the years run, strictly increasing, from
    the start year of the station through 2025. *)
Theorem flat_records_ordered :
  forall (St : Type) (normal uniform : float -> float -> St -> float * St)
         (s : St),
  exists self s' rows,
    init St normal uniform s = Some (self, s') /\
    get_all_data self = Some rows /\
    map (fun row => (Radio row, Annee row)) rows
    = flat_map (fun radio => map (pair radio)
                                 (Py.range (start_year_of radio) 2026))
               (Py.keys radios_registry) /\
    Py.keys radios_registry = Py.keys trends /\
    forall radio, StronglySorted Z.lt (Py.range (start_year_of radio) 2026).
Proof.
  intros St normal uniform s.
  destruct (TableFacts.generated_table St normal uniform s)
    as (self & s' & Hinit & _ & _ & Hshape & Hrows).
  exists self, s', (rows_for (audience_data self)).
  split; [assumption|]. split; [assumption|]. split; [|split].
  - rewrite TableFacts.registry_keys.
    now apply TableFacts.rows_stations_years with (1 := Hshape).
  - apply TableFacts.registry_keys.
  - intros radio. apply TableFacts.range_sorted.
Qed.

(** * The trend of the chart and the trend of the console *)

Module TrendFacts.

Lemma in_unique (l : list string) (x : string) : In x (unique l) <-> In x l.
Proof.
  induction l as [|y l IH]; simpl; [tauto|].
  rewrite filter_In, IH, negb_true_iff, String.eqb_neq.
  destruct (string_dec y x); tauto.
Qed.

Lemma in_rows_of df radio row :
  In row (rows_of df radio) -> In radio (unique (map Radio df)).
Proof.
  unfold rows_of. rewrite filter_In, String.eqb_eq, in_unique.
  intros [Hin <-]. now apply in_map.
Qed.

Lemma iloc_last_app {A} (l : list A) (x : A) :
  iloc_last (l ++ [x])%list = Some x.
Proof. unfold iloc_last. now rewrite rev_app_distr. Qed.

Lemma find_app {A} (f : A -> bool) (l1 l2 : list A) :
  find f (l1 ++ l2)%list
  = match find f l1 with Some x => Some x | None => find f l2 end.
Proof.
  induction l1 as [|a l1 IH]; simpl; [reflexivity|].
  now destruct (f a).
Qed.

(** Looking a station up among blocks that are each about one station. *)
Lemma find_in_blocks {B} (key : B -> string) (g : string -> list B)
    (us : list string) (radio : string) (b : B) (rest : list B) :
  (forall r x, In x (g r) -> key x = r) ->
  In radio us ->
  g radio = b :: rest ->
  find (fun x => String.eqb (key x) radio) (flat_map g us) = Some b.
Proof.
  intros Hkey Hin Hg.
  assert (Hb : key b = radio) by (apply Hkey; rewrite Hg; now left).
  induction us as [|r us IH]; simpl in *; [contradiction|].
  rewrite find_app.
  destruct (string_dec r radio) as [->|Hne].
  - rewrite Hg. simpl. now rewrite Hb, String.eqb_refl.
  - destruct Hin as [E|Hin]; [contradiction|].
    rewrite IH by assumption.
    destruct (find _ (g r)) as [x|] eqn:E; [|reflexivity].
    apply find_some in E. destruct E as [Hx E].
    apply String.eqb_eq in E. apply Hkey in Hx. congruence.
Qed.

Lemma iloc_last_cons {A} (x : A) (l : list A) :
  iloc_last (x :: l) = Some (List.last l x).
Proof.
  destruct (exists_last (l := x :: l)) as (l' & a & E); [discriminate|].
  rewrite E, iloc_last_app. f_equal.
  assert (H : List.last (x :: l) x = a) by (rewrite E; apply last_last).
  rewrite <- H. destruct l; reflexivity.
Qed.

Lemma chart_trends_blocks (df : list FlatRecord) :
  chart_trends df = Some (flat_map (chart_block df) (unique (map Radio df))).
Proof.
  unfold chart_trends.
  apply (LoopFacts.for_opt_blocks _ (chart_block df) _ []).
  intros acc radio _. unfold chart_block.
  destruct (rows_of df radio) as [|first [|second rest]].
  - simpl. now rewrite app_nil_r.
  - simpl. now rewrite app_nil_r.
  - replace (1 <? Z.of_nat (List.length (first :: second :: rest))) with true
      by (symmetry; apply Z.ltb_lt; cbn [List.length]; lia).
    now rewrite iloc_last_cons.
Qed.

Lemma display_trends_blocks (df : list FlatRecord) :
  display_trends df
  = Some (flat_map (display_block df) (unique (map Radio df))).
Proof.
  unfold display_trends.
  apply (LoopFacts.for_opt_blocks _ (display_block df) _ []).
  intros acc radio _. unfold display_block.
  destruct (rows_of df radio) as [|first [|second rest]].
  - simpl. now rewrite app_nil_r.
  - simpl. now rewrite app_nil_r.
  - replace (1 <? Z.of_nat (List.length (first :: second :: rest))) with true
      by (symmetry; apply Z.ltb_lt; cbn [List.length]; lia).
    reflexivity.
Qed.

(** The chart panel: for a station with more than one row, the audience of
    its last row minus the audience of its first row. *)
Lemma plotted_trend_last_minus_first df radio first middle last :
  rows_of df radio = (first :: middle ++ [last])%list ->
  plotted_trend df radio = Some (Audience last - Audience first)%float.
Proof.
  intros Hrows. unfold plotted_trend. rewrite chart_trends_blocks.
  assert (Hblock : chart_block df radio
                   = [{| trend_Radio := radio;
                         Tendance := (Audience last - Audience first)%float;
                         trend_Type := Type_ first |}]).
  { unfold chart_block. rewrite Hrows.
    destruct middle as [|m middle]; [reflexivity|].
    cbn [app]. rewrite app_comm_cons, last_last. reflexivity. }
  assert (Hkey : forall r x, In x (chart_block df r) -> trend_Radio x = r).
  { intros r x. unfold chart_block.
    destruct (rows_of df r) as [|f [|f' rest]]; simpl; try tauto.
    intros [<-|[]]. reflexivity. }
  assert (Hin : In radio (unique (map Radio df))).
  { apply (in_rows_of df radio first). rewrite Hrows. now left. }
  now rewrite (find_in_blocks trend_Radio (chart_block df) _ radio _ []
                 Hkey Hin Hblock).
Qed.

(** The console: for a station with more than one row, the largest audience
    of its rows minus the audience of its first row. *)
Lemma printed_trend_max_minus_first df radio first second rest :
  rows_of df radio = first :: second :: rest ->
  printed_trend df radio
  = Some (column_max (map Audience (first :: second :: rest))
          - Audience first)%float.
Proof.
  intros Hrows. unfold printed_trend. rewrite display_trends_blocks.
  assert (Hin : In radio (unique (map Radio df))).
  { apply (in_rows_of df radio first). rewrite Hrows. now left. }
  assert (Hblock : display_block df radio
                   = [(radio,
                       (column_max (map Audience (first :: second :: rest))
                        - Audience first)%float)]).
  { unfold display_block. now rewrite Hrows. }
  assert (Hkey : forall r x, In x (display_block df r) -> fst x = r).
  { intros r x. unfold display_block.
    destruct (rows_of df r) as [|f [|f' l]]; simpl; try tauto.
    intros [<-|[]]. reflexivity. }
  revert Hin. generalize (unique (map Radio df)) as us.
  induction us as [|r us IH]; simpl; [contradiction|].
  intros Hin. rewrite DictFacts.get_app.
  destruct (string_dec r radio) as [->|Hne].
  - rewrite Hblock. simpl. now rewrite String.eqb_refl.
  - destruct Hin as [E|Hin]; [contradiction|].
    rewrite IH by assumption.
    destruct (Py.get radio (display_block df r)) as [v|] eqn:E; [|reflexivity].
    apply DictFacts.In_get, Hkey in E. simpl in E. congruence.
Qed.

End TrendFacts.

(** Claim C8 on the table of a run without noise. 'Réunion 1ère' has 24
    rows; its value in 2025 minus its value in 2002 is 22.8 - 28.5, a loss of
    5.7 points, and this is the trend of the chart panel; the console prints
    the largest value minus the value of 2002, here 0. *)
Theorem console_trend_is_not_start_to_end :
  quiet_table = Some quiet_df /\
  List.length (rows_of quiet_df "Réunion 1ère") = 24%nat /\
  start_to_end_delta quiet_df "Réunion 1ère" = Some (22.8 - 28.5)%float /\
  plotted_trend quiet_df "Réunion 1ère" = Some (22.8 - 28.5)%float /\
  printed_trend quiet_df "Réunion 1ère" = Some 0%float /\
  (22.8 - 28.5 <? 0)%float = true.
Proof. repeat split; vm_compute; reflexivity. Qed.

(** * The order in which the generator consumes the random source *)

Module CallFacts.

Section Calls.

Variable St : Type.
Variable normal : float -> float -> St -> float * St.
Variable uniform : float -> float -> St -> float * St.

Local Abbreviation run := (run_calls St normal uniform).

Lemma run_app (c1 c2 : list Call) (s : St) :
  run (c1 ++ c2)%list s = run c2 (run c1 s).
Proof. apply fold_left_app. Qed.

Lemma special_event_state year value s v s' :
  special_event St uniform year value s = Some (v, s') ->
  s' = run (event_calls year) s.
Proof.
  unfold special_event, event_calls, Rand.bind, Rand.draw, Rand.ret.
  destruct (year =? 2008); [|destruct (year =? 2020); [|destruct (year =? 2021)]];
    simpl; try destruct (uniform _ _ s) as [u s1]; simpl;
    intros H; apply LoopFacts.Some_inj in H;
    apply (f_equal snd) in H; simpl in H; congruence.
Qed.

Lemma year_value_state b t vol start year s v s' :
  year_value St normal uniform b t vol start year s = Some (v, s') ->
  s' = run (year_calls vol year) s.
Proof.
  intros H.
  destruct (ShapeFacts.year_value_clamped _ _ _ _ _ _ _ _ _ _ _ H)
    as (raw & Hraw & _).
  revert Hraw. unfold raw_value, Rand.bind, Rand.draw.
  unfold year_calls. simpl.
  destruct (normal 0 vol s) as [noise s1]. simpl.
  apply special_event_state.
Qed.

(** A loop whose turns each make the calls [calls x]. *)
Lemma for_each_state {A B} (body : B -> A -> Rand.M St B)
    (calls : A -> list Call) :
  (forall acc x s acc' s',
      body acc x s = Some (acc', s') -> s' = run (calls x) s) ->
  forall xs acc s acc' s',
    Rand.for_each xs body acc s = Some (acc', s') ->
    s' = run (flat_map calls xs) s.
Proof.
  intros Hbody. induction xs as [|x xs IH]; simpl; intros acc s acc' s' H.
  - unfold Rand.ret in H. apply LoopFacts.Some_inj in H.
    apply (f_equal snd) in H. simpl in H. congruence.
  - unfold Rand.bind in H.
    destruct (body acc x s) as [[acc1 s1]|] eqn:E; [|discriminate].
    rewrite run_app. rewrite <- (Hbody _ _ _ _ _ E). now apply IH with acc1 acc'.
Qed.

Lemma year_body_state radio b t vol start ad year s ad' s' :
  year_body St normal uniform radio b t vol start ad year s = Some (ad', s') ->
  s' = run (if year <? start then [] else year_calls vol year) s.
Proof.
  unfold year_body. destruct (year <? start).
  - unfold Rand.ret. intros H. apply LoopFacts.Some_inj in H.
    apply (f_equal snd) in H. simpl in H. now subst s'.
  - unfold Rand.bind at 1.
    destruct (year_value St normal uniform b t vol start year s)
      as [[v s1]|] eqn:E; [|discriminate].
    apply year_value_state in E. subst s1.
    unfold Rand.bind, Rand.item, Rand.ret.
    destruct (Py.get radio ad); [|discriminate].
    intros H. apply LoopFacts.Some_inj in H.
    apply (f_equal snd) in H. simpl in H. now subst s'.
Qed.

Lemma skipped_calls radio vol :
  flat_map (fun y => if y <? start_year_of radio then [] else year_calls vol y)
    (Py.range 2002 2026)
  = flat_map (year_calls vol) (Py.range (start_year_of radio) 2026).
Proof. unfold start_year_of. now destruct (String.eqb radio "Hit West"). Qed.

Lemma radio_body_state ad entry s ad' s' :
  radio_body St normal uniform ad entry s = Some (ad', s') ->
  s' = run (station_calls entry) s.
Proof.
  destruct entry as [radio params]. unfold radio_body, station_calls.
  unfold Rand.bind at 1, Rand.item at 1.
  destruct (Py.get (Py.str (start_year_of radio)) params) as [b|];
    [|discriminate].
  unfold Rand.bind at 1, Rand.item at 1.
  destruct (Py.get "trend" params) as [t|]; [|discriminate].
  unfold Rand.bind at 1, Rand.item at 1. simpl snd.
  destruct (Py.get "volatility" params) as [vol|]; [|discriminate].
  intros H. simpl fst. rewrite <- skipped_calls.
  revert H. apply for_each_state.
  intros acc y s0 acc' s0'. apply year_body_state.
Qed.

End Calls.

End CallFacts.

(** X1. A run of the generator leaves the random source in the state reached
    by a fixed sequence of calls: station after station in the order of
    [trends], year after year from the start year of the station through
    2025, one [normal(0, volatility)] per year followed, in 2008, 2020 and
    2021 only, by one [uniform] with the bounds of the event; that is 189
    calls of [normal] and 24 of [uniform]. *)
Theorem generator_call_sequence :
  forall (St : Type) (normal uniform : float -> float -> St -> float * St)
         (s : St),
  exists data,
    _create_realistic_audience_data St normal uniform s
    = Some (data, run_calls St normal uniform generator_calls s) /\
    List.length (filter is_normal generator_calls) = 189%nat /\
    List.length (filter (fun c => negb (is_normal c)) generator_calls)
    = 24%nat.
Proof.
  intros St normal uniform s.
  destruct (GeneratorFacts.generated_shape St normal uniform s)
    as (data & s' & Hrun & _).
  exists data. split; [|split; reflexivity].
  rewrite Hrun. do 2 f_equal.
  revert Hrun. unfold _create_realistic_audience_data, generator_calls.
  apply CallFacts.for_each_state.
  intros acc entry s0 acc' s0'. apply CallFacts.radio_body_state.
Qed.

(** * Reading the table back *)

Module RowFacts.

(** The rows of a series hold its values under the years of its keys. *)
Lemma find_in_series radio year (series : Py.dict float) :
  (forall e, In e series -> exists y, fst e = Py.str y) ->
  option_map Audience
    (find (fun row => String.eqb (Radio row) radio && (Annee row =? year))
          (map (fun e => row_for radio (fst e) (snd e)) series))
  = Py.get (Py.str year) series.
Proof.
  induction series as [|[k v] series IH]; intros Hkeys; [reflexivity|].
  destruct (Hkeys (k, v) (or_introl eq_refl)) as (y & Hy). simpl in Hy. subst k.
  cbn [map find fst snd row_for Radio Annee Py.get].
  rewrite PyFacts.int_str, String.eqb_refl. cbn [andb].
  destruct (Z.eqb_spec y year) as [->|Hne].
  - now rewrite String.eqb_refl.
  - destruct (String.eqb_spec (Py.str y) (Py.str year)) as [E|_].
    + apply PyFacts.str_inj in E. contradiction.
    + apply IH. intros e He. apply Hkeys. now right.
Qed.

(** No row of another station answers a search for [radio]. *)
Lemma find_other_station radio year r (series : Py.dict float) :
  r <> radio ->
  find (fun row => String.eqb (Radio row) radio && (Annee row =? year))
       (map (fun e => row_for r (fst e) (snd e)) series) = None.
Proof.
  intros Hne. induction series as [|[k v] series IH]; [reflexivity|].
  cbn [map find fst snd row_for Radio].
  apply String.eqb_neq in Hne. now rewrite Hne.
Qed.

Lemma value_in_rows (data : Py.dict (Py.dict float)) radio year :
  NoDup (Py.keys data) ->
  (forall item e, In item data -> In e (snd item) ->
                  exists y, fst e = Py.str y) ->
  value_in_year (rows_for data) radio year = stored_value data radio year.
Proof.
  unfold value_in_year, stored_value, rows_for.
  induction data as [|[r series] data IH]; intros Hnd Hkeys; [reflexivity|].
  inversion_clear Hnd as [|? ? Hr Hnd'].
  cbn [flat_map fst snd Py.get]. rewrite TrendFacts.find_app.
  destruct (String.eqb_spec r radio) as [->|Hne].
  - pose proof (find_in_series radio year series) as Hs.
    destruct (find _ (map _ series)) as [row|] eqn:E.
    + apply Hs. intros e He. apply (Hkeys (radio, series)); [now left|exact He].
    + rewrite <- Hs
        by (intros e He; apply (Hkeys (radio, series)); [now left|exact He]).
      simpl.
      assert (Hnone : Py.get radio data = None)
        by now apply DictFacts.get_None.
      rewrite IH; [now rewrite Hnone|assumption|].
      intros item e Hi He. apply (Hkeys item); [now right|exact He].
  - rewrite find_other_station by assumption.
    apply IH; [assumption|].
    intros item e Hi He. apply (Hkeys item); [now right|exact He].
Qed.

Lemma in_rows_for (data : Py.dict (Py.dict float)) row :
  In row (rows_for data) ->
  exists radio series key audience,
    In (radio, series) data /\ In (key, audience) series /\
    row = row_for radio key audience.
Proof.
  unfold rows_for. rewrite in_flat_map.
  intros ([radio series] & Hin & Hrow). simpl in Hrow.
  apply in_map_iff in Hrow. destruct Hrow as ([key audience] & <- & He).
  exists radio, series, key, audience. auto.
Qed.

Lemma launched_before_start :
  Forall (fun radio => lancement (info_of radio) <= start_year_of radio)
         (Py.keys trends).
Proof. repeat constructor; vm_compute; discriminate. Qed.

End RowFacts.

(** X2. The table can be read back: for every station name and every year,
    the audience found in the rows of [get_all_data] under that station and
    that year is the value stored in [audience_data[radio][str(year)]], and
    nothing is found when nothing is stored. *)
Theorem table_reads_back :
  forall (St : Type) (normal uniform : float -> float -> St -> float * St)
         (s : St),
  exists self s' rows,
    init St normal uniform s = Some (self, s') /\
    get_all_data self = Some rows /\
    forall radio year,
      value_in_year rows radio year
      = stored_value (audience_data self) radio year.
Proof.
  intros St normal uniform s.
  destruct (TableFacts.generated_table St normal uniform s)
    as (self & s' & Hinit & _ & _ & Hshape & Hrows).
  exists self, s', (rows_for (audience_data self)).
  split; [assumption|]. split; [assumption|].
  intros radio year. apply RowFacts.value_in_rows.
  - rewrite (ShapeFacts.data_keys _ _ _ _ _ Hshape).
    apply GeneratorFacts.trends_keys_NoDup.
  - intros item e Hitem He.
    destruct (ShapeFacts.Forall2_In_r _ _ _ _ Hshape Hitem)
      as (entry & _ & _ & b & t & vol & _ & _ & _ & Hseries).
    destruct (ShapeFacts.Forall2_In_r _ _ _ _ Hseries He) as (y & _ & Hk & _).
    eauto.
Qed.

(** X3. Every row of the table of a run is well formed: its year lies
    between 2002 and 2025 and is not before the launch year of its station,
    and its audience lies in [1.0, 35.0] and has one decimal. *)
Theorem rows_well_formed :
  forall (St : Type) (normal uniform : float -> float -> St -> float * St)
         (s : St),
  exists self s' rows,
    init St normal uniform s = Some (self, s') /\
    get_all_data self = Some rows /\
    forall row,
      In row rows ->
      2002 <= Annee row <= 2025 /\
      Lancement row <= Annee row /\
      (1 <=? Audience row)%float = true /\
      (Audience row <=? 35)%float = true /\
      one_decimal (Audience row).
Proof.
  intros St normal uniform s.
  destruct (TableFacts.generated_table St normal uniform s)
    as (self & s' & Hinit & _ & _ & Hshape & Hrows).
  exists self, s', (rows_for (audience_data self)).
  split; [assumption|]. split; [assumption|].
  intros row Hrow.
  destruct (RowFacts.in_rows_for _ _ Hrow)
    as (radio & series & key & audience & Hitem & He & ->).
  destruct (ShapeFacts.Forall2_In_r _ _ _ _ Hshape Hitem)
    as ([radio' params] & Hentry & Hr & b & t & vol & _ & _ & _ & Hseries).
  simpl in Hr, Hseries. subst radio'.
  destruct (ShapeFacts.Forall2_In_r _ _ _ _ Hseries He)
    as (y & Hy & Hk & s0 & s1 & Hval).
  simpl in Hk, Hval. subst key.
  apply PyFacts.in_range in Hy.
  pose proof (TableFacts.start_year_bounds radio) as Hstart.
  assert (Hlaunch : lancement (info_of radio) <= start_year_of radio).
  { pose proof RowFacts.launched_before_start as Hall.
    rewrite Forall_forall in Hall. apply Hall.
    change radio with (fst (radio, params)). now apply in_map. }
  destruct (ShapeFacts.year_value_clamped _ _ _ _ _ _ _ _ _ _ _ Hval)
    as (raw & _ & ->).
  unfold row_for. cbn [Annee Lancement Audience].
  rewrite PyFacts.int_str.
  split; [lia|]. split; [lia|].
  apply ShapeFacts.clamp_round_bounds.
Qed.

(** * Error and edge behaviour of the table and of the trends *)

Module EdgeFacts.

(** A loop raises as soon as one of its turns always raises. *)
Lemma for_opt_raises {A B} (body : B -> A -> option B) (xs : list A) (x : A) :
  In x xs ->
  (forall acc, body acc x = None) ->
  forall acc, for_opt xs body acc = None.
Proof.
  intros Hin Hx. induction xs as [|x0 xs IH]; simpl in *; [contradiction|].
  intros acc. destruct (body acc x0) as [acc'|] eqn:E; [|reflexivity].
  destruct Hin as [->|Hin].
  - now rewrite Hx in E.
  - now apply IH.
Qed.

Lemma chart_block_station df radio :
  map trend_Radio (chart_block df radio)
  = if 1 <? Z.of_nat (List.length (rows_of df radio)) then [radio] else [].
Proof.
  unfold chart_block.
  destruct (rows_of df radio) as [|first [|second rest]]; try reflexivity.
  replace (1 <? Z.of_nat (List.length (first :: second :: rest))) with true
    by (symmetry; apply Z.ltb_lt; cbn [List.length]; lia).
  reflexivity.
Qed.

Lemma display_block_station df radio :
  map fst (display_block df radio)
  = if 1 <? Z.of_nat (List.length (rows_of df radio)) then [radio] else [].
Proof.
  unfold display_block.
  destruct (rows_of df radio) as [|first [|second rest]]; try reflexivity.
  replace (1 <? Z.of_nat (List.length (first :: second :: rest))) with true
    by (symmetry; apply Z.ltb_lt; cbn [List.length]; lia).
  reflexivity.
Qed.

Lemma blocks_stations {B} (key : B -> string) (block : string -> list B)
    (keep : string -> bool) (us : list string) :
  (forall radio,
      map key (block radio) = if keep radio then [radio] else []) ->
  map key (flat_map block us) = filter keep us.
Proof.
  intros Hblock. induction us as [|u us IH]; [reflexivity|].
  simpl. rewrite map_app, Hblock, IH. now destruct (keep u).
Qed.

Lemma chart_trends_stations df :
  exists trends,
    chart_trends df = Some trends /\
    map trend_Radio trends = trended_stations df.
Proof.
  exists (flat_map (chart_block df) (unique (map Radio df))).
  split; [apply TrendFacts.chart_trends_blocks|].
  apply blocks_stations. intros radio. apply chart_block_station.
Qed.

End EdgeFacts.

(** X4. [get_all_data] raises when a station of [audience_data] that holds
    at least one value is missing from [self.radios]: the subscript
    [self.radios[radio]] of line 92 is a [KeyError]. *)
Theorem unregistered_station_raises :
  forall (self : ReunionRadioAnalyzer) (radio : string)
         (series : Py.dict float),
    In (radio, series) (audience_data self) ->
    series <> [] ->
    Py.get radio (radios self) = None ->
    get_all_data self = None.
Proof.
  intros self radio series Hin Hne Hmiss. unfold get_all_data.
  apply (EdgeFacts.for_opt_raises _ _ (radio, series) Hin).
  intros acc. destruct series as [|[key audience] series]; [contradiction|].
  apply (EdgeFacts.for_opt_raises _ ((key, audience) :: series)
           (key, audience)); [now left|].
  intros acc'. unfold flat_record. now rewrite Hmiss.
Qed.

(** The theorem X4 on an analyzer with one value for a station and an empty
    registry. *)
Lemma unregistered_station_raises_witness :
  get_all_data {| radios := []; audience_data := [("Pirate", [("2002", 1%float)])] |}
  = None.
Proof.
  apply (unregistered_station_raises
           {| radios := []; audience_data := [("Pirate", [("2002", 1%float)])] |}
           "Pirate" [("2002", 1%float)]).
  - now left.
  - discriminate.
  - reflexivity.
Defined.

(** X5. On any table, the two trend computations never raise, and both
    report exactly the stations that have more than one row, once each, in
    order of first appearance: a station with a single row is skipped. *)
Theorem trends_skip_single_rows :
  forall df : list FlatRecord,
  exists trends lines,
    chart_trends df = Some trends /\
    display_trends df = Some lines /\
    map trend_Radio trends = trended_stations df /\
    map fst lines = trended_stations df.
Proof.
  intros df.
  exists (flat_map (chart_block df) (unique (map Radio df))),
         (flat_map (display_block df) (unique (map Radio df))).
  split; [apply TrendFacts.chart_trends_blocks|].
  split; [apply TrendFacts.display_trends_blocks|].
  split; apply EdgeFacts.blocks_stations; intros radio.
  - apply EdgeFacts.chart_block_station.
  - apply EdgeFacts.display_block_station.
Qed.

(** X6. When no station of the table has more than one row (an empty table,
    or the table of a single year), the colours of the trend panel cannot be
    computed: [trends] stays empty and [trends_df['Radio']] of line 159
    raises. *)
Theorem trend_colors_need_two_rows :
  forall (self : ReunionRadioAnalyzer) (df : list FlatRecord),
    (forall radio, (List.length (rows_of df radio) <= 1)%nat) ->
    trend_colors self df = None.
Proof.
  intros self df Hshort. unfold trend_colors.
  destruct (EdgeFacts.chart_trends_stations df) as (trends & -> & Hst).
  assert (Hnone : trended_stations df = []).
  { unfold trended_stations.
    induction (unique (map Radio df)) as [|u us IH]; [reflexivity|].
    simpl. replace (1 <? Z.of_nat (List.length (rows_of df u))) with false;
      [assumption|].
    symmetry. apply Z.ltb_ge. specialize (Hshort u). lia. }
  rewrite Hnone in Hst. now destruct trends.
Qed.

(** The theorem X6 on the table that holds one row. *)
Lemma trend_colors_need_two_rows_witness :
  trend_colors {| radios := radios_registry; audience_data := [] |}
    [row_for "Freedom" "2025" 15%float] = None.
Proof.
  apply trend_colors_need_two_rows.
  intros radio. unfold rows_of. cbn [filter row_for Radio].
  destruct (String.eqb "Freedom" radio); simpl; lia.
Defined.

(** * The panels on the table of a run *)

Module PanelFacts.

Lemma map_filter_years (rows : list FlatRecord) (y : Z) :
  map Radio (filter (fun row => Annee row =? y) rows)
  = map fst (filter (fun p => snd p =? y)
                    (map (fun row => (Radio row, Annee row)) rows)).
Proof.
  induction rows as [|row rows IH]; [reflexivity|].
  simpl. destruct (Annee row =? y); simpl; now rewrite IH.
Qed.

Lemma filter_block_same radio (series : Py.dict float) :
  filter (fun row => String.eqb (Radio row) radio)
         (map (fun e => row_for radio (fst e) (snd e)) series)
  = map (fun e => row_for radio (fst e) (snd e)) series.
Proof.
  induction series as [|e series IH]; [reflexivity|].
  cbn [map filter row_for Radio]. now rewrite String.eqb_refl, IH.
Qed.

Lemma filter_block_other radio r (series : Py.dict float) :
  r <> radio ->
  filter (fun row => String.eqb (Radio row) radio)
         (map (fun e => row_for r (fst e) (snd e)) series) = [].
Proof.
  intros Hne. apply String.eqb_neq in Hne.
  induction series as [|e series IH]; [reflexivity|].
  cbn [map filter row_for Radio]. now rewrite Hne.
Qed.

(** The rows of a station are the rows of its series. *)
Lemma rows_of_rows_for (data : Py.dict (Py.dict float)) radio :
  NoDup (Py.keys data) ->
  rows_of (rows_for data) radio
  = match Py.get radio data with
    | Some series => map (fun e => row_for radio (fst e) (snd e)) series
    | None => []
    end.
Proof.
  unfold rows_of, rows_for.
  induction data as [|[r series] data IH]; intros Hnd; [reflexivity|].
  inversion_clear Hnd as [|? ? Hr Hnd'].
  cbn [flat_map fst snd Py.get]. rewrite filter_app, IH by assumption.
  destruct (String.eqb_spec r radio) as [->|Hne].
  - rewrite filter_block_same.
    assert (Hnone : Py.get radio data = None) by now apply DictFacts.get_None.
    rewrite Hnone. apply app_nil_r.
  - now rewrite filter_block_other.
Qed.

(** A series of at least two items has a first and a last item. *)
Lemma first_and_last {A} (l : list A) :
  (2 <= List.length l)%nat ->
  exists first middle last, l = (first :: middle ++ [last])%list.
Proof.
  destruct l as [|a [|b l]]; simpl; try lia. intros _.
  destruct (exists_last (l := b :: l)) as (middle & last & E);
    [discriminate|].
  exists a, middle, last. now rewrite E.
Qed.

Lemma hd_map_str (l : list Z) :
  l <> [] -> hd "" (map Py.str l) = Py.str (hd 0 l).
Proof. destruct l; [contradiction|reflexivity]. Qed.

Lemma last_map_str (l : list Z) :
  l <> [] -> List.last (map Py.str l) "" = Py.str (List.last l 0).
Proof.
  induction l as [|y [|y' l] IH]; [contradiction|reflexivity|].
  intros _. change (List.last (map Py.str (y' :: l)) ""
                    = Py.str (List.last (y' :: l) 0)).
  apply IH. discriminate.
Qed.

Lemma range_length radio :
  List.length (Py.range (start_year_of radio) 2026)
  = Z.to_nat (2026 - start_year_of radio).
Proof. unfold Py.range. now rewrite length_map, length_seq. Qed.

Lemma range_first_last radio :
  hd 0 (Py.range (start_year_of radio) 2026) = start_year_of radio /\
  List.last (Py.range (start_year_of radio) 2026) 0 = 2025.
Proof.
  unfold start_year_of. destruct (String.eqb radio "Hit West");
    split; reflexivity.
Qed.

Section Panels.

Variable St : Type.
Variable normal : float -> float -> St -> float * St.
Variable uniform : float -> float -> St -> float * St.

Local Abbreviation station_series' := (station_series St normal uniform).

(** The series of a station runs from the value of its start year to the
    value of 2025. *)
Lemma series_ends data radio params :
  Forall2 station_series' trends data ->
  In (radio, params) trends ->
  exists first middle last,
    Py.get radio data
    = Some ((Py.str (start_year_of radio), first)
              :: middle ++ [(Py.str 2025, last)])%list /\
    stored_value data radio (start_year_of radio) = Some first /\
    stored_value data radio 2025 = Some last.
Proof.
  intros Hshape Hin.
  destruct (ShapeFacts.station_lookup _ _ _ _ _ _ Hshape
              GeneratorFacts.trends_keys_NoDup Hin)
    as (series & Hget & _ & b & t & vol & _ & _ & _ & Hseries).
  simpl in Hget, Hseries.
  pose proof (ShapeFacts.series_keys _ _ _ _ _ _ _ _ _ Hseries) as Hkeys.
  pose proof (TableFacts.start_year_bounds radio) as Hstart.
  destruct (first_and_last series) as ([k1 first] & middle & [kn last] & E).
  { rewrite <- (Forall2_length Hseries), range_length. lia. }
  destruct (range_first_last radio) as [Hhd Hlast].
  assert (Hne : Py.range (start_year_of radio) 2026 <> []).
  { intros H0. apply (f_equal (@List.length Z)) in H0.
    rewrite range_length in H0. cbn [List.length] in H0. lia. }
  assert (Hk1 : k1 = Py.str (start_year_of radio)).
  { pose proof (f_equal (hd "") Hkeys) as H1. rewrite E in H1. simpl in H1.
    now rewrite H1, hd_map_str, Hhd. }
  assert (Hkn : kn = Py.str 2025).
  { pose proof (f_equal (fun l => List.last l "") Hkeys) as Hn.
    rewrite E in Hn. unfold Py.keys in Hn.
    rewrite app_comm_cons, map_app in Hn. simpl map in Hn at 2.
    rewrite last_last in Hn. now rewrite Hn, last_map_str, Hlast. }
  subst k1 kn. exists first, middle, last.
  assert (Hnd : NoDup (Py.keys series)).
  { rewrite Hkeys. apply ShapeFacts.NoDup_map_str, PyFacts.NoDup_range. }
  rewrite <- E. split; [assumption|].
  unfold stored_value. rewrite Hget.
  split; apply DictFacts.get_In; try assumption; rewrite E.
  - now left.
  - right. apply in_or_app. right. now left.
Qed.

(** Where a row of the table comes from. *)
Lemma generated_row data row :
  Forall2 station_series' trends data ->
  In row (rows_for data) ->
  In (Radio row) (Py.keys trends) /\
  start_year_of (Radio row) <= Annee row <= 2025 /\
  stored_value data (Radio row) (Annee row) = Some (Audience row) /\
  (1 <=? Audience row)%float = true /\
  (Audience row <=? 35)%float = true.
Proof.
  intros Hshape Hrow.
  destruct (RowFacts.in_rows_for _ _ Hrow)
    as (radio & series & key & audience & Hitem & He & ->).
  destruct (ShapeFacts.Forall2_In_r _ _ _ _ Hshape Hitem)
    as ([radio' params] & Hentry & Hr & b & t & vol & _ & _ & _ & Hseries).
  simpl in Hr, Hseries. subst radio'.
  destruct (ShapeFacts.Forall2_In_r _ _ _ _ Hseries He)
    as (y & Hy & Hk & s0 & s1 & Hval).
  simpl in Hk, Hval. subst key.
  apply PyFacts.in_range in Hy.
  destruct (ShapeFacts.year_value_clamped _ _ _ _ _ _ _ _ _ _ _ Hval)
    as (raw & _ & Hv).
  unfold row_for. cbn [Radio Annee Audience]. rewrite PyFacts.int_str.
  split; [change radio with (fst (radio, params)); now apply in_map|].
  split; [lia|]. split.
  - unfold stored_value.
    rewrite (DictFacts.get_In radio series data); [|
      rewrite (ShapeFacts.data_keys _ _ _ _ _ Hshape);
      apply GeneratorFacts.trends_keys_NoDup | assumption].
    apply DictFacts.get_In; [|assumption].
    rewrite (ShapeFacts.series_keys _ _ _ _ _ _ _ _ _ Hseries).
    apply ShapeFacts.NoDup_map_str, PyFacts.NoDup_range.
  - subst audience.
    destruct (ShapeFacts.clamp_round_bounds raw) as (H1 & H2 & _). auto.
Qed.

(** The stations of the table, in order of first appearance. *)
Lemma generated_stations data :
  Forall2 station_series' trends data ->
  unique (map Radio (rows_for data)) = Py.keys trends.
Proof.
  intros Hshape.
  replace (map Radio (rows_for data))
    with (map fst (map (fun row => (Radio row, Annee row)) (rows_for data)))
    by (rewrite map_map; reflexivity).
  rewrite (TableFacts.rows_stations_years _ _ _ _ _ Hshape).
  vm_compute. reflexivity.
Qed.

(** The rows of a station, from its first year to 2025. *)
Lemma station_rows data radio :
  Forall2 station_series' trends data ->
  In radio (Py.keys trends) ->
  exists first middle last,
    stored_value data radio (start_year_of radio) = Some first /\
    stored_value data radio 2025 = Some last /\
    rows_of (rows_for data) radio
    = (row_for radio (Py.str (start_year_of radio)) first
         :: map (fun e => row_for radio (fst e) (snd e)) middle
         ++ [row_for radio (Py.str 2025) last])%list.
Proof.
  intros Hshape Hin. apply in_map_iff in Hin.
  destruct Hin as ([radio' params] & Hfst & Hin). simpl in Hfst. subst radio'.
  destruct (series_ends data radio params Hshape Hin)
    as (first & middle & last & Hget & Hfirst & Hlast).
  exists first, middle, last. split; [assumption|]. split; [assumption|].
  rewrite rows_of_rows_for, Hget.
  - cbn [map fst snd]. now rewrite map_app.
  - rewrite (ShapeFacts.data_keys _ _ _ _ _ Hshape).
    apply GeneratorFacts.trends_keys_NoDup.
Qed.

End Panels.

End PanelFacts.

(** X7. On the table of a run, the latest year is 2025, although the
    comment of line 122 announces the ranking of 2024; the rows of that year
    are one per registered station, in the order of the registry, and each
    holds the value stored for 2025. *)
Theorem latest_year_is_2025 :
  forall (St : Type) (normal uniform : float -> float -> St -> float * St)
         (s : St),
  exists self s' rows,
    init St normal uniform s = Some (self, s') /\
    get_all_data self = Some rows /\
    latest_year rows = Some 2025 /\
    map Radio (latest_data rows) = Py.keys radios_registry /\
    forall row,
      In row (latest_data rows) ->
      Annee row = 2025 /\
      stored_value (audience_data self) (Radio row) 2025 = Some (Audience row).
Proof.
  intros St normal uniform s.
  destruct (TableFacts.generated_table St normal uniform s)
    as (self & s' & Hinit & _ & _ & Hshape & Hrows).
  exists self, s', (rows_for (audience_data self)).
  split; [assumption|]. split; [assumption|].
  pose proof (TableFacts.rows_stations_years _ _ _ _ _ Hshape) as Hpairs.
  assert (Hlatest : latest_year (rows_for (audience_data self)) = Some 2025).
  { unfold latest_year.
    replace (map Annee (rows_for (audience_data self)))
      with (map snd (map (fun row => (Radio row, Annee row))
                         (rows_for (audience_data self))))
      by (rewrite map_map; reflexivity).
    rewrite Hpairs. vm_compute. reflexivity. }
  split; [assumption|]. unfold latest_data. rewrite Hlatest. split.
  - rewrite PanelFacts.map_filter_years, Hpairs. vm_compute. reflexivity.
  - intros row Hrow. apply filter_In in Hrow. destruct Hrow as [Hrow Hyear].
    apply Z.eqb_eq in Hyear. split; [assumption|].
    destruct (PanelFacts.generated_row _ _ _ _ _ Hshape Hrow)
      as (_ & _ & Hstored & _).
    now rewrite Hyear in Hstored.
Qed.

(** X8. On the table of a run, the trend panel never raises and shows one
    bar per registered station, in the order of the registry and in the
    colour the registry gives the station; the length of the bar is the
    value stored for 2025 minus the value stored for the start year of the
    station, the start-to-end delta. *)
Theorem chart_trend_is_start_to_end :
  forall (St : Type) (normal uniform : float -> float -> St -> float * St)
         (s : St),
  exists self s' rows bars,
    init St normal uniform s = Some (self, s') /\
    get_all_data self = Some rows /\
    chart_trends rows = Some bars /\
    map trend_Radio bars = Py.keys radios_registry /\
    trend_colors self rows
    = Some (map (fun radio => couleur (info_of radio))
                (Py.keys radios_registry)) /\
    forall radio,
      In radio (Py.keys radios_registry) ->
      exists first last,
        stored_value (audience_data self) radio (start_year_of radio)
        = Some first /\
        stored_value (audience_data self) radio 2025 = Some last /\
        plotted_trend rows radio = Some (last - first)%float /\
        start_to_end_delta rows radio = Some (last - first)%float.
Proof.
  intros St normal uniform s.
  destruct (TableFacts.generated_table St normal uniform s)
    as (self & s' & Hinit & Hreg & _ & Hshape & Hrows).
  set (rows := rows_for (audience_data self)) in *.
  assert (Hdelta : forall radio,
             In radio (Py.keys trends) ->
             exists first last,
               stored_value (audience_data self) radio (start_year_of radio)
               = Some first /\
               stored_value (audience_data self) radio 2025 = Some last /\
               plotted_trend rows radio = Some (last - first)%float /\
               start_to_end_delta rows radio = Some (last - first)%float /\
               (2 <= List.length (rows_of rows radio))%nat).
  { intros radio Hin.
    destruct (PanelFacts.station_rows _ _ _ _ _ Hshape Hin)
      as (first & middle & last & Hfirst & Hlast & Hstation).
    fold rows in Hstation.
    exists first, last. split; [assumption|]. split; [assumption|].
    split; [|split].
    - now rewrite (TrendFacts.plotted_trend_last_minus_first _ _ _ _ _ Hstation).
    - unfold start_to_end_delta, rows.
      rewrite !RowFacts.value_in_rows, Hfirst, Hlast; try reflexivity.
      all: try (rewrite (ShapeFacts.data_keys _ _ _ _ _ Hshape);
                apply GeneratorFacts.trends_keys_NoDup).
      all: intros item e Hitem He;
        destruct (ShapeFacts.Forall2_In_r _ _ _ _ Hshape Hitem)
          as (entry & _ & _ & b & t & vol & _ & _ & _ & Hseries);
        destruct (ShapeFacts.Forall2_In_r _ _ _ _ Hseries He)
          as (y & _ & Hk & _); eauto.
    - rewrite Hstation. cbn [List.length]. rewrite length_app. simpl. lia. }
  destruct (EdgeFacts.chart_trends_stations rows) as (bars & Hchart & Hst).
  assert (Hall : trended_stations rows = Py.keys trends).
  { unfold trended_stations, rows.
    rewrite (PanelFacts.generated_stations _ _ _ _ Hshape). fold rows.
    apply forallb_filter_id. apply forallb_forall. intros radio Hin.
    destruct (Hdelta radio Hin) as (_ & _ & _ & _ & _ & _ & Hlen).
    apply Z.ltb_lt. lia. }
  rewrite Hall in Hst.
  exists self, s', rows, bars.
  split; [assumption|]. split; [assumption|]. split; [assumption|].
  rewrite TableFacts.registry_keys. split; [assumption|]. split.
  - unfold trend_colors. rewrite Hchart.
    destruct bars as [|first rest]; [discriminate|].
    rewrite <- Hst, map_map.
    apply (TableFacts.for_opt_rows _
             (fun row => couleur (info_of (trend_Radio row)))
             (first :: rest) []).
    intros acc row Hrow. rewrite Hreg, TableFacts.registered_info;
      [reflexivity|].
    rewrite <- Hst. now apply in_map.
  - intros radio Hin.
    destruct (Hdelta radio Hin) as (first & last & H1 & H2 & H3 & H4 & _).
    exists first, last. auto.
Qed.

(** * The ranking *)

Module RankFacts.

Lemma SFcompare_antisym (x y : spec_float) :
  SFcompare y x = option_map CompOpp (SFcompare x y).
Proof.
  destruct x as [sx|sx| |sx mx ex], y as [sy|sy| |sy my ey]; simpl;
    try reflexivity;
    try (destruct sx; reflexivity); try (destruct sy; reflexivity);
    try (destruct sx, sy; reflexivity).
  destruct sx, sy; simpl; try reflexivity;
    rewrite (Z.compare_antisym ex ey);
    destruct (ex ?= ey); simpl; try reflexivity;
    rewrite (Pos.compare_cont_antisym mx my Eq); simpl;
    now rewrite ?CompOpp_involutive.
Qed.

Lemma SFleb_trans (x y z : spec_float) :
  SFleb x y = true -> SFleb y z = true -> SFleb x z = true.
Proof.
  unfold SFleb.
  destruct x as [sx|sx| |sx mx ex], y as [sy|sy| |sy my ey],
           z as [sz|sz| |sz mz ez]; simpl; try discriminate; try reflexivity;
    try (destruct sx; simpl; try discriminate; try reflexivity;
         destruct sy; simpl; try discriminate; try reflexivity;
         destruct sz; simpl; try discriminate; reflexivity);
    try (destruct sx, sy; simpl; try discriminate; reflexivity);
    try (destruct sy, sz; simpl; try discriminate; reflexivity);
    try (destruct sx, sz; simpl; try discriminate; reflexivity).
  all: destruct sx, sy, sz; simpl; try discriminate; try reflexivity.
  all: destruct (Z.compare_spec ex ey); try discriminate;
       destruct (Z.compare_spec ey ez); try discriminate;
       destruct (Z.compare_spec ex ez); try lia; try reflexivity.
  all: subst;
       repeat match goal with
       | |- context [Pos.compare_cont Eq ?p ?q] =>
           change (Pos.compare_cont Eq p q) with (Pos.compare p q);
           destruct (Pos.compare_spec p q)
       end; simpl; try discriminate; try reflexivity; try lia.
Qed.

Lemma leb_trans (x y z : float) :
  (x <=? y)%float = true -> (y <=? z)%float = true -> (x <=? z)%float = true.
Proof. rewrite !leb_spec. apply SFleb_trans. Qed.

(** A number that compares with another one is not NaN, so it equals
    itself. *)
Lemma leb_eqb_refl (x y : float) :
  (x <=? y)%float = true -> (y =? y)%float = true.
Proof.
  rewrite leb_spec, eqb_spec. unfold SFleb, SFeqb. intros H.
  rewrite PyFacts.SFcompare_refl; [reflexivity|].
  intros E. rewrite E in H. destruct (Prim2SF x); discriminate.
Qed.

(** Two numbers that are not NaN compare one way or the other. *)
Lemma ltb_false_leb (x y : float) :
  (x =? x)%float = true -> (y =? y)%float = true ->
  (x <? y)%float = false -> (y <=? x)%float = true.
Proof.
  rewrite !eqb_spec, ltb_spec, leb_spec. unfold SFeqb, SFltb, SFleb.
  rewrite (SFcompare_antisym (Prim2SF x) (Prim2SF y)).
  intros Hx Hy.
  destruct (SFcompare (Prim2SF x) (Prim2SF y)) as [[]|] eqn:E; simpl;
    try reflexivity; try discriminate.
  intros _.
  destruct (Prim2SF x) as [sx|sx| |sx mx ex]; try discriminate;
    destruct (Prim2SF y) as [sy|sy| |sy my ey]; try discriminate;
    simpl in E; try discriminate;
    try (destruct sx; discriminate); try (destruct sy; discriminate);
    destruct sx, sy; discriminate.
Qed.

Lemma outranks_trans (a b c : FlatRecord) : outranks a b -> outranks b c -> outranks a c.
Proof. unfold outranks. intros H1 H2. now apply leb_trans with (Audience b). Qed.

Lemma insert_perm row sorted :
  Permutation (insert_by_audience row sorted) (row :: sorted).
Proof.
  induction sorted as [|r rest IH]; simpl; [reflexivity|].
  destruct (Audience row <? Audience r)%float; [|reflexivity].
  rewrite IH. apply perm_swap.
Qed.

Lemma sort_perm rows : Permutation (sort_by_audience rows) rows.
Proof.
  induction rows as [|row rows IH]; simpl; [reflexivity|].
  now rewrite insert_perm, IH.
Qed.

Lemma insert_sorted row sorted :
  has_audience row = true ->
  Forall (fun r => has_audience r = true) sorted ->
  Sorted outranks sorted ->
  Sorted outranks (insert_by_audience row sorted).
Proof.
  intros Hrow Hall Hsorted.
  induction sorted as [|r rest IH]; simpl; [repeat constructor|].
  inversion_clear Hall as [|? ? Hr Hrest].
  inversion_clear Hsorted as [|? ? Hs Hhd].
  destruct (Audience row <? Audience r)%float eqn:E.
  - constructor; [now apply IH|].
    destruct rest as [|r' rest]; simpl.
    + constructor. unfold outranks. now apply PyFacts.ltb_leb.
    + destruct (Audience row <? Audience r')%float.
      * constructor. now inversion_clear Hhd.
      * constructor. unfold outranks. now apply PyFacts.ltb_leb.
  - constructor; [now constructor|].
    constructor. unfold outranks. now apply ltb_false_leb.
Qed.

Lemma sort_sorted rows :
  Forall (fun r => has_audience r = true) rows ->
  StronglySorted outranks (sort_by_audience rows).
Proof.
  intros Hall. apply Sorted_StronglySorted.
  { intros a b c. apply outranks_trans. }
  induction rows as [|row rows IH]; simpl; [constructor|].
  inversion_clear Hall as [|? ? Hrow Hrows].
  apply insert_sorted; [assumption| |now apply IH].
  apply Forall_forall. intros r Hr.
  rewrite Forall_forall in Hrows. apply Hrows.
  now apply (Permutation_in _ (sort_perm rows)).
Qed.

Lemma sorted_split (l1 l2 : list FlatRecord) :
  StronglySorted outranks (l1 ++ l2)%list ->
  StronglySorted outranks l1 /\
  forall high low, In high l1 -> In low l2 -> outranks high low.
Proof.
  induction l1 as [|a l1 IH]; simpl; intros H.
  - split; [constructor|contradiction].
  - inversion_clear H as [|? ? Hs Hall]. destruct (IH Hs) as [H1 H2].
    rewrite Forall_forall in Hall. split.
    + constructor; [assumption|]. apply Forall_forall.
      intros x Hx. apply Hall, in_or_app. now left.
    + intros high low [<-|Hin] Hlow.
      * apply Hall, in_or_app. now right.
      * now apply H2.
Qed.

Lemma filter_all {A} (f : A -> bool) (l : list A) :
  Forall (fun x => f x = true) l ->
  filter f l = l /\ filter (fun x => negb (f x)) l = [].
Proof.
  induction 1 as [|x l Hx _ [IH1 IH2]]; [split; reflexivity|].
  simpl. rewrite Hx, IH1, IH2. split; reflexivity.
Qed.

(** The [n] largest rows of a table in which every row has an audience. *)
Lemma nlargest_spec (n : nat) (df : list FlatRecord) :
  Forall (fun r => has_audience r = true) df ->
  exists others,
    Permutation (nlargest n df ++ others) df /\
    List.length (nlargest n df) = Nat.min n (List.length df) /\
    StronglySorted outranks (nlargest n df) /\
    forall high low, In high (nlargest n df) -> In low others ->
                     outranks high low.
Proof.
  intros Hall. unfold nlargest.
  destruct (filter_all has_audience df Hall) as [-> ->].
  rewrite app_nil_r.
  exists (skipn n (sort_by_audience df)).
  rewrite firstn_skipn. split; [apply sort_perm|]. split.
  - rewrite length_firstn. f_equal.
    apply Permutation_length, sort_perm.
  - apply sorted_split. rewrite firstn_skipn. now apply sort_sorted.
Qed.

End RankFacts.

(** X9. The ranking printed for a run: the five rows of [top_5] are rows of
    2025 of five different stations, ordered from the largest audience down,
    and each of the three stations left out has an audience of 2025 that is
    at most that of every ranked station. *)
Theorem top_5_is_the_ranking :
  forall (St : Type) (normal uniform : float -> float -> St -> float * St)
         (s : St),
  exists self s' rows others,
    init St normal uniform s = Some (self, s') /\
    get_all_data self = Some rows /\
    Permutation (top_5 rows ++ others) (latest_data rows) /\
    List.length (top_5 rows) = 5%nat /\
    List.length others = 3%nat /\
    NoDup (map Radio (top_5 rows ++ others)) /\
    StronglySorted outranks (top_5 rows) /\
    (forall high low, In high (top_5 rows) -> In low others ->
                      outranks high low) /\
    forall row,
      In row (top_5 rows) ->
      Annee row = 2025 /\
      stored_value (audience_data self) (Radio row) 2025 = Some (Audience row).
Proof.
  intros St normal uniform s.
  destruct (TableFacts.generated_table St normal uniform s)
    as (self & s' & Hinit & _ & _ & Hshape & Hrows).
  set (rows := rows_for (audience_data self)) in *.
  assert (Hin : forall row, In row (latest_data rows) ->
                            In row rows /\ Annee row = 2025).
  { intros row Hrow. unfold latest_data in Hrow.
    destruct (latest_year rows) as [y|] eqn:Hy; [|contradiction].
    apply filter_In in Hrow. destruct Hrow as [Hrow Hyear].
    split; [assumption|]. apply Z.eqb_eq in Hyear. rewrite Hyear.
    pose proof (TableFacts.rows_stations_years _ _ _ _ _ Hshape) as Hpairs.
    fold rows in Hpairs. revert Hy. unfold latest_year.
    replace (map Annee rows)
      with (map snd (map (fun row => (Radio row, Annee row)) rows))
      by (rewrite map_map; reflexivity).
    rewrite Hpairs. vm_compute. intros E. now apply LoopFacts.Some_inj in E. }
  assert (Hstations : map Radio (latest_data rows) = Py.keys trends).
  { pose proof (TableFacts.rows_stations_years _ _ _ _ _ Hshape) as Hpairs.
    fold rows in Hpairs. unfold latest_data, latest_year.
    replace (map Annee rows)
      with (map snd (map (fun row => (Radio row, Annee row)) rows))
      by (rewrite map_map; reflexivity).
    rewrite Hpairs.
    change (match map snd _ with [] => None | y :: ys => Some (fold_left Z.max ys y) end)
      with (Some 2025) at 1.
    cbv iota. rewrite PanelFacts.map_filter_years, Hpairs.
    vm_compute. reflexivity. }
  assert (Hall : Forall (fun r => has_audience r = true) (latest_data rows)).
  { apply Forall_forall. intros row Hrow.
    destruct (Hin row Hrow) as [Hrow' _].
    destruct (PanelFacts.generated_row _ _ _ _ _ Hshape Hrow')
      as (_ & _ & _ & Hlo & _).
    unfold has_audience. now apply RankFacts.leb_eqb_refl with 1%float. }
  destruct (RankFacts.nlargest_spec 5 (latest_data rows) Hall)
    as (others & Hperm & Hlen & Hsorted & Hdom).
  assert (Hcount : List.length (latest_data rows) = 8%nat).
  { rewrite <- (length_map Radio), Hstations. reflexivity. }
  exists self, s', rows, others. fold (top_5 rows) in *.
  split; [assumption|]. split; [assumption|]. split; [assumption|].
  rewrite Hcount in Hlen. split; [assumption|]. split.
  - apply Permutation_length in Hperm. rewrite length_app in Hperm.
    simpl in Hlen. lia.
  - split; [|split; [assumption|split; [assumption|]]].
    + apply (Permutation_NoDup (l := map Radio (latest_data rows))).
      * apply Permutation_map. now symmetry.
      * rewrite Hstations. apply GeneratorFacts.trends_keys_NoDup.
    + intros row Hrow.
      assert (Hrow' : In row (latest_data rows)).
      { apply (Permutation_in _ Hperm), in_or_app. now left. }
      destruct (Hin row Hrow') as [Hrows' Hyear]. split; [assumption|].
      destruct (PanelFacts.generated_row _ _ _ _ _ Hshape Hrows')
        as (_ & _ & Hstored & _).
      now rewrite Hyear in Hstored.
Qed.

(** * The time series panel and the latest year *)

Module SeriesFacts.




Lemma fold_max_ge (ys : list Z) (y : Z) :
  y <= fold_left Z.max ys y /\
  Forall (fun x => x <= fold_left Z.max ys y) ys /\
  (fold_left Z.max ys y = y \/ In (fold_left Z.max ys y) ys).
Proof.
  revert y. induction ys as [|x ys IH]; intros y; simpl.
  - split; [lia|]. split; [constructor|now left].
  - destruct (IH (Z.max y x)) as (H1 & H2 & H3).
    split; [lia|]. split.
    + constructor; [lia|assumption].
    + destruct H3 as [H3|H3]; [|now right; right].
      destruct (Z.max_spec y x) as [[_ E]|[_ E]].
      * right. left. now rewrite H3.
      * left. now rewrite H3.
Qed.

End SeriesFacts.


(** X11. The first panel raises on any table that holds a row of a station
    missing from [self.radios]: the subscript of line 110 is a [KeyError]. *)
Theorem time_series_unregistered_raises :
  forall (self : ReunionRadioAnalyzer) (df : list FlatRecord)
         (row : FlatRecord),
    In row df ->
    Py.get (Radio row) (radios self) = None ->
    time_series self df = None.
Proof.
  intros self df row Hin Hmiss. unfold time_series.
  apply (EdgeFacts.for_opt_raises _ _ (Radio row)).
  - apply TrendFacts.in_unique. now apply in_map.
  - intros acc. now rewrite Hmiss.
Qed.

(** The theorem X11 on the table of one row of an unknown station. *)
Lemma time_series_unregistered_raises_witness :
  time_series {| radios := radios_registry; audience_data := [] |}
    [row_for "Pirate" "2025" 15%float] = None.
Proof.
  apply (time_series_unregistered_raises
           {| radios := radios_registry; audience_data := [] |}
           [row_for "Pirate" "2025" 15%float]
           (row_for "Pirate" "2025" 15%float)).
  - now left.
  - reflexivity.
Defined.

(** X12. The latest year of any table: an empty table has none, and then
    [latest_data] and the ranking are empty; otherwise no row has a later
    year, [latest_data] is not empty and holds exactly the rows of that
    year. *)
Theorem latest_year_of_any_table :
  forall df : list FlatRecord,
    match latest_year df with
    | None => df = [] /\ latest_data df = [] /\ top_5 df = []
    | Some y =>
        (forall row, In row df -> Annee row <= y) /\
        latest_data df <> [] /\
        (forall row, In row (latest_data df) <-> In row df /\ Annee row = y)
    end.
Proof.
  intros df. unfold top_5, latest_data, latest_year.
  destruct df as [|row df]; [repeat split|].
  cbn [map].
  destruct (SeriesFacts.fold_max_ge (map Annee df) (Annee row))
    as (Hrow & Hall & Hhit).
  set (y := fold_left Z.max (map Annee df) (Annee row)) in *.
  rewrite Forall_forall in Hall.
  assert (Hiff : forall r, In r (filter (fun r => Annee r =? y) (row :: df))
                           <-> In r (row :: df) /\ Annee r = y).
  { intros r. rewrite filter_In, Z.eqb_eq. reflexivity. }
  split; [|split; [|exact Hiff]].
  - intros r [<-|Hr]; [assumption|]. apply Hall. now apply in_map.
  - assert (Hex : exists r, In r (row :: df) /\ Annee r = y).
    { destruct Hhit as [E|Hin].
      - exists row. split; [now left|now symmetry].
      - apply in_map_iff in Hin. destruct Hin as (r & E & Hr).
        exists r. split; [now right|assumption]. }
    destruct Hex as (r & Hr). apply Hiff in Hr.
    intros E. rewrite E in Hr. contradiction.
Qed.

(** X13. Rounding and clamping are idempotent on tenths: every double
    closest to k/10, for k from 10 to 350, that is every one-decimal value
    from 1.0 to 35.0, is a fixed point of line 75. *)
Theorem clamp_round_keeps_tenths :
  forall k : Z,
    10 <= k <= 350 ->
    clamp_round (Py.nearest_decimal 10 k) = Py.nearest_decimal 10 k.
Proof.
  intros k Hk.
  assert (Hall : forallb
                   (fun k => PrimFloat.Leibniz.eqb
                               (clamp_round (Py.nearest_decimal 10 k))
                               (Py.nearest_decimal 10 k))
                   (Py.range 10 351) = true) by (vm_compute; reflexivity).
  rewrite forallb_forall in Hall.
  apply FloatAxioms.Leibniz.eqb_spec, Hall, PyFacts.in_range. lia.
Qed.

(** The theorem X13 at 28.2. *)
Lemma clamp_round_keeps_tenths_witness :
  10 <= 282 <= 350 /\
  clamp_round (Py.nearest_decimal 10 282) = Py.nearest_decimal 10 282.
Proof.
  split; [lia|]. apply (clamp_round_keeps_tenths 282). lia.
Defined.

(** * The accessors together, and a station without parameters *)

(** X14. The two accessors agree: for every name, the rows of that station
    in the table of [get_all_data], read as (str(year), audience) pairs, are
    the items of [get_radio_data] for that name, in the same order; for a
    name that is not a station both are empty. *)
Theorem station_rows_are_its_series :
  forall (St : Type) (normal uniform : float -> float -> St -> float * St)
         (s : St),
  exists self s' rows,
    init St normal uniform s = Some (self, s') /\
    get_all_data self = Some rows /\
    forall name,
      map (fun row => (Py.str (Annee row), Audience row)) (rows_of rows name)
      = get_radio_data self name.
Proof.
  intros St normal uniform s.
  destruct (TableFacts.generated_table St normal uniform s)
    as (self & s' & Hinit & _ & _ & Hshape & Hrows).
  exists self, s', (rows_for (audience_data self)).
  split; [assumption|]. split; [assumption|].
  intros name. unfold get_radio_data.
  rewrite PanelFacts.rows_of_rows_for
    by (rewrite (ShapeFacts.data_keys _ _ _ _ _ Hshape);
        apply GeneratorFacts.trends_keys_NoDup).
  destruct (Py.get name (audience_data self)) as [series|] eqn:Hget;
    [|reflexivity].
  apply DictFacts.In_get in Hget.
  destruct (ShapeFacts.Forall2_In_r _ _ _ _ Hshape Hget)
    as (entry & _ & _ & b & t & vol & _ & _ & _ & Hseries).
  simpl in Hseries. clear Hget.
  induction Hseries as [|y [k v] ys series [Hk _] _ IH]; [reflexivity|].
  simpl in Hk. subst k.
  cbn [map fst snd row_for Annee Audience].
  now rewrite PyFacts.int_str, IH.
Qed.

(** X15. One turn of the loop over the stations, for parameters whose
    volatility, when present, is not negative (the domain on which [normal]
    does not raise): the turn raises exactly when the parameters of the
    station lack the key of its start year ('2005' for 'Hit West', '2002'
    for any other station), the key 'trend' or the key 'volatility';
    otherwise it returns, whatever [audience_data] held. *)
Theorem station_loop_raises_iff :
  forall (St : Type) (normal uniform : float -> float -> St -> float * St)
         (audience_data : Py.dict (Py.dict float)) (radio : string)
         (params : Py.dict float) (s : St),
    (forall volatility,
        Py.get "volatility" params = Some volatility ->
        (0 <? volatility)%float = true \/ volatility = 0%float) ->
    (radio_body St normal uniform audience_data (radio, params) s = None
     <-> (Py.get (Py.str (start_year_of radio)) params = None \/
          Py.get "trend" params = None \/
          Py.get "volatility" params = None)).
Proof.
  intros St normal uniform ad radio params s _. split.
  - intros Hraise.
    destruct (Py.get (Py.str (start_year_of radio)) params) as [b|] eqn:Hb;
      [|now left].
    destruct (Py.get "trend" params) as [t|] eqn:Ht; [|now right; left].
    destruct (Py.get "volatility" params) as [vol|] eqn:Hvol;
      [|now right; right].
    exfalso.
    rewrite (GeneratorFacts.radio_body_params _ _ _ _ _ _ _ b t vol Hb Ht Hvol)
      in Hraise.
    destruct (GeneratorFacts.year_loop St normal uniform radio b t vol
                (start_year_of radio) (Py.range 2002 2026)
                (Py.set radio [] ad) s [])
      as (entries & s' & Hrun & _).
    + apply DictFacts.get_set_same.
    + apply PyFacts.NoDup_range.
    + reflexivity.
    + rewrite Hrun in Hraise. discriminate.
  - unfold radio_body, Rand.bind, Rand.item.
    intros [H|[H|H]].
    + now rewrite H.
    + rewrite H. now destruct (Py.get (Py.str (start_year_of radio)) params).
    + rewrite H. destruct (Py.get (Py.str (start_year_of radio)) params);
        [|reflexivity].
      now destruct (Py.get "trend" params).
Qed.

(** The theorem X15 on the parameters of 'Hit West' filed under '2002': the
    turn raises, for want of the key '2005'. *)
Lemma station_loop_raises_iff_witness :
  radio_body unit zero_normal low_uniform []
    ("Hit West", [("2002", 4.5); ("trend", 0.35); ("volatility", 1.2)]%float)
    tt = None
  <-> (Py.get (Py.str (start_year_of "Hit West"))
         [("2002", 4.5); ("trend", 0.35); ("volatility", 1.2)]%float = None \/
       Py.get "trend"
         [("2002", 4.5); ("trend", 0.35); ("volatility", 1.2)]%float = None \/
       Py.get "volatility"
         [("2002", 4.5); ("trend", 0.35); ("volatility", 1.2)]%float = None).
Proof.
  apply (station_loop_raises_iff unit zero_normal low_uniform [] "Hit West"
           [("2002", 4.5); ("trend", 0.35); ("volatility", 1.2)]%float tt).
  intros volatility H. left. vm_compute in H.
  apply LoopFacts.Some_inj in H. subst volatility. reflexivity.
Defined.

(** * The trend of the console is never negative *)

Module PeakFacts.

Lemma digits2_pos_bounds (m : positive) :
  2 ^ (Z.pos (digits2_pos m) - 1) <= Z.pos m < 2 ^ Z.pos (digits2_pos m).
Proof.
  induction m as [m IH|m IH|]; simpl digits2_pos.
  - rewrite Pos2Z.inj_succ.
    replace (Z.succ (Z.pos (digits2_pos m)) - 1) with (Z.succ (Z.pos (digits2_pos m) - 1)) by lia.
    rewrite !Z.pow_succ_r by lia. lia.
  - rewrite Pos2Z.inj_succ.
    replace (Z.succ (Z.pos (digits2_pos m)) - 1) with (Z.succ (Z.pos (digits2_pos m) - 1)) by lia.
    rewrite !Z.pow_succ_r by lia. lia.
  - simpl. lia.
Qed.

Lemma iter_xO (p d : positive) : Z.pos (Pos.iter xO p d) = Z.pos p * 2 ^ Z.pos d.
Proof.
  induction d as [|d IH] using Pos.peano_ind.
  - simpl. lia.
  - rewrite Pos.iter_succ, Pos2Z.inj_succ, Z.pow_succ_r by lia.
    rewrite Pos2Z.inj_xO, IH. lia.
Qed.

Lemma shl_align_value (m : positive) (e ez : Z) :
  ez <= e ->
  Z.pos (fst (shl_align m e ez)) = Z.pos m * 2 ^ (e - ez).
Proof.
  intros H. unfold shl_align.
  destruct (ez - e) as [|d|d] eqn:E; simpl fst.
  - replace (e - ez) with 0 by lia. simpl. lia.
  - lia.
  - rewrite iter_xO. f_equal. f_equal. lia.
Qed.

Lemma aligned_le (mx my : positive) (ex ey : Z) :
  valid_binary (S754_finite false mx ex) = true ->
  valid_binary (S754_finite false my ey) = true ->
  SFleb (S754_finite false my ey) (S754_finite false mx ex) = true ->
  Z.pos (fst (shl_align my ey (Z.min ex ey)))
  <= Z.pos (fst (shl_align mx ex (Z.min ex ey))).
Proof.
  unfold SpecFloat.valid_binary, bounded, canonical_mantissa, fexp, emin.
  intros Hx Hy. apply andb_prop in Hx, Hy.
  destruct Hx as [Hx _], Hy as [Hy _]. apply Z.eqb_eq in Hx, Hy.
  pose proof (digits2_pos_bounds mx) as Bx.
  pose proof (digits2_pos_bounds my) as By.
  unfold SFleb, SFcompare.
  rewrite !shl_align_value by lia.
  destruct (Z.compare_spec ey ex) as [E|E|E]; try discriminate.
  - subst ey. change (Pos.compare_cont Eq my mx) with (Pos.compare my mx).
    destruct (Pos.compare_spec my mx); try discriminate; intros _;
      rewrite Z.min_id, Z.sub_diag; simpl; lia.
  - intros _. rewrite Z.min_r by lia. rewrite Z.sub_diag.
    change (2 ^ 0) with 1. rewrite Z.mul_1_r.
    unfold prec, emax in *.
    assert (Hdx : Z.pos (digits2_pos mx) = 53) by lia.
    assert (Hdy : Z.pos (digits2_pos my) <= 53) by lia.
    rewrite Hdx in Bx.
    assert (Z.pos my < 2 ^ 53).
    { eapply Z.lt_le_trans; [apply By|]. apply Z.pow_le_mono_r; lia. }
    assert (2 ^ 1 <= 2 ^ (ex - ey)) by (apply Z.pow_le_mono_r; lia).
    change (2 ^ (53 - 1)) with 4503599627370496 in Bx.
    change (2 ^ 53) with 9007199254740992 in *. change (2 ^ 1) with 2 in *.
    nia.
Qed.

Lemma iter_pos_invariant {A} (P : A -> Prop) (f : A -> A) :
  (forall x, P x -> P (f x)) -> forall n x, P x -> P (iter_pos f n x).
Proof.
  intros Hf. induction n as [n IH|n IH|]; simpl; intros x Hx; auto.
Qed.

Lemma shr_1_nonneg mrs : 0 <= shr_m mrs -> 0 <= shr_m (shr_1 mrs).
Proof.
  destruct mrs as [m r s]. simpl.
  destruct m as [|[p|p|]|[p|p|]]; simpl; lia.
Qed.

Lemma shr_fexp_nonneg m e l :
  0 <= m -> 0 <= shr_m (fst (shr_fexp prec emax m e l)).
Proof.
  intros Hm. unfold shr_fexp, shr.
  assert (H0 : 0 <= shr_m (shr_record_of_loc m l))
    by (destruct l as [|[]]; simpl; assumption).
  destruct (fexp prec emax (Zdigits2 m + e) - e); simpl; try assumption.
  apply (iter_pos_invariant (fun mrs => 0 <= shr_m mrs)); [|assumption].
  apply shr_1_nonneg.
Qed.

Lemma binary_round_aux_nonneg mx ex lx :
  0 <= mx ->
  SFleb (S754_zero false) (binary_round_aux prec emax false mx ex lx) = true.
Proof.
  intros Hm. unfold binary_round_aux.
  pose proof (shr_fexp_nonneg mx ex lx Hm) as H1.
  destruct (shr_fexp prec emax mx ex lx) as [mrs' e']. simpl in H1.
  assert (H2 : 0 <= round_nearest_even (shr_m mrs') (loc_of_shr_record mrs')).
  { unfold round_nearest_even.
    destruct (loc_of_shr_record mrs') as [|[]]; try lia.
    destruct (Z.even (shr_m mrs')); lia. }
  pose proof (shr_fexp_nonneg _ e' loc_Exact H2) as H3.
  destruct (shr_fexp prec emax _ e' loc_Exact) as [mrs'' e'']. simpl in H3.
  destruct (shr_m mrs'') as [|p|p]; try lia; try reflexivity.
  destruct (e'' <=? emax - prec); reflexivity.
Qed.

Lemma sub_nonneg (x y : float) :
  (1 <=? y)%float = true -> (y <=? x)%float = true -> (x <=? 35)%float = true ->
  (0 <=? x - y)%float = true.
Proof.
  rewrite !leb_spec, sub_spec.
  pose proof (Prim2SF_valid x) as Vx. pose proof (Prim2SF_valid y) as Vy.
  replace (Prim2SF 0) with (S754_zero false) by reflexivity.
  replace (Prim2SF 1) with (S754_finite false 4503599627370496 (-52))
    by reflexivity.
  replace (Prim2SF 35) with (S754_finite false 4925812092436480 (-47))
    by reflexivity.
  destruct (Prim2SF y) as [sy|sy| |sy my ey];
    destruct (Prim2SF x) as [sx|sx| |sx mx ex];
    intros H1 H2 H3; simpl in H1, H2, H3;
    try discriminate;
    try (destruct sy; discriminate); try (destruct sx; discriminate);
    try (destruct sx, sy; discriminate).
  destruct sy; [discriminate|]. destruct sx; [discriminate|].
  pose proof (aligned_le mx my ex ey Vx Vy H2) as Hal.
  unfold SF64sub, SFsub, cond_Zopp, binary_normalize.
  destruct (Z.pos (fst (shl_align mx ex (Z.min ex ey)))
            - Z.pos (fst (shl_align my ey (Z.min ex ey)))) as [|p|p] eqn:E;
    try lia; try reflexivity.
  unfold binary_round.
  destruct (shl_align p (Z.min ex ey) _) as [mz ez].
  apply binary_round_aux_nonneg. lia.
Qed.

Lemma storable_eqb v : storable v -> (v =? v)%float = true.
Proof. intros [H _]. now apply RankFacts.leb_eqb_refl with 1%float. Qed.

Lemma fold_peak (rest : list float) (acc : float) :
  Forall storable rest -> storable acc ->
  let peak := fold_left (fun m x => if (m <? x)%float then x else m) rest acc in
  storable peak /\ (acc <=? peak)%float = true /\
  Forall (fun v => (v <=? peak)%float = true) rest /\
  (peak = acc \/ In peak rest).
Proof.
  revert acc. induction rest as [|x rest IH]; intros acc Hrest Hacc; simpl.
  - split; [assumption|]. split; [|split; [constructor|now left]].
    apply PyFacts.leb_refl_of_leb with 35%float, Hacc.
  - inversion_clear Hrest as [|? ? Hx Hrest'].
    destruct (acc <? x)%float eqn:E.
    + destruct (IH x Hrest' Hx) as (Hp & Hle & Hall & Hin).
      split; [assumption|]. split; [|split].
      * apply RankFacts.leb_trans with x; [now apply PyFacts.ltb_leb|assumption].
      * now constructor.
      * destruct Hin as [->|Hin]; right; [now left|now right].
    + destruct (IH acc Hrest' Hacc) as (Hp & Hle & Hall & Hin).
      split; [assumption|]. split; [assumption|]. split.
      * constructor; [|assumption].
        apply RankFacts.leb_trans with acc; [|assumption].
        apply RankFacts.ltb_false_leb; auto using storable_eqb.
      * destruct Hin as [Hin|Hin]; [now left|right; now right].
Qed.

(** The largest value of a column of storable audiences. *)
Lemma column_max_peak (first : float) (rest : list float) :
  Forall storable (first :: rest) ->
  let peak := column_max (first :: rest) in
  In peak (first :: rest) /\
  Forall (fun v => (v <=? peak)%float = true) (first :: rest) /\
  (0 <=? peak - first)%float = true.
Proof.
  intros Hall. unfold column_max.
  destruct (RankFacts.filter_all (fun v => (v =? v)%float) (first :: rest))
    as [-> _].
  { apply Forall_forall. intros v Hv. rewrite Forall_forall in Hall.
    now apply storable_eqb, Hall. }
  inversion_clear Hall as [|? ? Hfirst Hrest].
  destruct (fold_peak rest first Hrest Hfirst) as (Hp & Hle & Hall & Hin).
  split; [|split].
  - destruct Hin as [->|Hin]; [now left|now right].
  - now constructor.
  - apply sub_nonneg; [apply Hfirst|assumption|apply Hp].
Qed.

Lemma display_trends_stations df :
  exists lines,
    display_trends df = Some lines /\
    map fst lines = trended_stations df.
Proof.
  exists (flat_map (display_block df) (unique (map Radio df))).
  split; [apply TrendFacts.display_trends_blocks|].
  apply EdgeFacts.blocks_stations. intros radio.
  apply EdgeFacts.display_block_station.
Qed.

End PeakFacts.

(** X16. The trend printed on the console for a run: for every registered
    station it is the largest value stored for the station minus the value
    stored for its start year, so it is never negative, whereas the station
    may have lost audience between its start year and 2025. *)
Theorem console_trend_is_peak_minus_first :
  forall (St : Type) (normal uniform : float -> float -> St -> float * St)
         (s : St),
  exists self s' rows lines,
    init St normal uniform s = Some (self, s') /\
    get_all_data self = Some rows /\
    display_trends rows = Some lines /\
    map fst lines = Py.keys radios_registry /\
    forall radio,
      In radio (Py.keys radios_registry) ->
      exists first peak,
        stored_value (audience_data self) radio (start_year_of radio)
        = Some first /\
        (exists year,
            stored_value (audience_data self) radio year = Some peak) /\
        (forall year v,
            stored_value (audience_data self) radio year = Some v ->
            (v <=? peak)%float = true) /\
        printed_trend rows radio = Some (peak - first)%float /\
        (0 <=? peak - first)%float = true.
Proof.
  intros St normal uniform s.
  destruct (TableFacts.generated_table St normal uniform s)
    as (self & s' & Hinit & Hreg & _ & Hshape & Hrows).
  set (rows := rows_for (audience_data self)) in *.
  assert (Hnd : NoDup (Py.keys (audience_data self))).
  { rewrite (ShapeFacts.data_keys _ _ _ _ _ Hshape).
    apply GeneratorFacts.trends_keys_NoDup. }
  assert (Hkeys : forall item e,
             In item (audience_data self) -> In e (snd item) ->
             exists y, fst e = Py.str y).
  { intros item e Hitem He.
    destruct (ShapeFacts.Forall2_In_r _ _ _ _ Hshape Hitem)
      as (entry & _ & _ & b & t & vol & _ & _ & _ & Hseries).
    destruct (ShapeFacts.Forall2_In_r _ _ _ _ Hseries He) as (y & _ & Hk & _).
    eauto. }
  assert (Hpeak : forall radio,
             In radio (Py.keys trends) ->
             (2 <= List.length (rows_of rows radio))%nat /\
             exists first peak,
               stored_value (audience_data self) radio (start_year_of radio)
               = Some first /\
               (exists year,
                   stored_value (audience_data self) radio year = Some peak) /\
               (forall year v,
                   stored_value (audience_data self) radio year = Some v ->
                   (v <=? peak)%float = true) /\
               printed_trend rows radio = Some (peak - first)%float /\
               (0 <=? peak - first)%float = true).
  { intros radio Hin.
    destruct (PanelFacts.station_rows _ _ _ _ _ Hshape Hin)
      as (first & middle & last & Hfirst & _ & Hstation).
    fold rows in Hstation.
    set (row1 := row_for radio (Py.str (start_year_of radio)) first) in *.
    destruct (map (fun e => row_for radio (fst e) (snd e)) middle
              ++ [row_for radio (Py.str 2025) last])%list
      as [|second rest] eqn:Etail;
      [now destruct (map (fun e => row_for radio (fst e) (snd e)) middle)|].
    split; [rewrite Hstation; simpl; lia|].
    assert (Hsub : forall row, In row (rows_of rows radio) ->
                               In row rows /\ Radio row = radio).
    { intros row Hrow. unfold rows_of in Hrow. apply filter_In in Hrow.
      destruct Hrow as [H1 H2]. apply String.eqb_eq in H2. auto. }
    assert (Hok : Forall storable
                    (map Audience (rows_of rows radio))).
    { apply Forall_forall. intros v Hv. apply in_map_iff in Hv.
      destruct Hv as (row & <- & Hrow). destruct (Hsub row Hrow) as [Hrow' _].
      destruct (PanelFacts.generated_row _ _ _ _ _ Hshape Hrow')
        as (_ & _ & _ & H1 & H2).
      split; assumption. }
    rewrite Hstation in Hok.
    destruct (PeakFacts.column_max_peak (Audience row1)
                (map Audience (second :: rest)) Hok) as (Hin' & Hall & Hpos).
    change (Audience row1 :: map Audience (second :: rest))
      with (map Audience (row1 :: second :: rest)) in Hin', Hall, Hpos.
    set (peak := column_max (map Audience (row1 :: second :: rest))) in *.
    change (Audience row1) with first in Hpos.
    exists first, peak. split; [assumption|]. split; [|split; [|split]].
    - apply in_map_iff in Hin'. destruct Hin' as (row & Hrow & Hin').
      rewrite <- Hstation in Hin'. destruct (Hsub row Hin') as [Hrow' Hr].
      destruct (PanelFacts.generated_row _ _ _ _ _ Hshape Hrow')
        as (_ & _ & Hstored & _).
      exists (Annee row). now rewrite <- Hr, <- Hrow.
    - intros year v Hv.
      rewrite <- (RowFacts.value_in_rows _ radio year Hnd Hkeys) in Hv.
      fold rows in Hv. unfold value_in_year in Hv.
      destruct (find _ rows) as [row|] eqn:Ef; [|discriminate].
      apply LoopFacts.Some_inj in Hv. simpl in Hv. subst v.
      apply find_some in Ef. destruct Ef as [Hrow Hmatch].
      apply andb_prop in Hmatch. destruct Hmatch as [Hr _].
      rewrite Forall_forall in Hall. apply Hall.
      rewrite <- Hstation. apply in_map. unfold rows_of.
      apply filter_In. auto.
    - rewrite (TrendFacts.printed_trend_max_minus_first _ _ _ _ _ Hstation).
      reflexivity.
    - assumption. }
  destruct (PeakFacts.display_trends_stations rows) as (lines & Hlines & Hst).
  assert (Hall : trended_stations rows = Py.keys trends).
  { unfold trended_stations, rows.
    rewrite (PanelFacts.generated_stations _ _ _ _ Hshape). fold rows.
    apply forallb_filter_id. apply forallb_forall. intros radio Hin.
    destruct (Hpeak radio Hin) as (Hlen & _).
    apply Z.ltb_lt. lia. }
  exists self, s', rows, lines.
  split; [assumption|]. split; [assumption|]. split; [assumption|].
  rewrite TableFacts.registry_keys, Hst. split; [assumption|].
  intros radio Hin. now destruct (Hpeak radio Hin) as (_ & H).
Qed.

(** * The draws behind each stored value *)

Module ThreadFacts.

Section Thread.

Variable St : Type.
Variable normal : float -> float -> St -> float * St.
Variable uniform : float -> float -> St -> float * St.

Local Abbreviation run := (run_calls St normal uniform).
Local Abbreviation year_value' := (year_value St normal uniform).
Local Abbreviation year_store' := (year_store St normal uniform).
Local Abbreviation series_from' := (series_from St normal uniform).

Lemma year_value_exact b t vol start y s :
  year_value' b t vol start y s
  = Some (year_store' b t vol start y s, run (year_calls vol y) s).
Proof.
  destruct (GeneratorFacts.year_value_total St normal uniform b t vol start y s)
    as (v & s1 & H).
  pose proof (CallFacts.year_value_state _ _ _ _ _ _ _ _ _ _ _ H) as Hs.
  unfold year_store. rewrite H. now subst s1.
Qed.

(** The loop over the years, with the state each turn starts from. *)
Lemma year_loop_exact radio b t vol start :
  forall (ys : list Z) ad s series0,
    Py.get radio ad = Some series0 ->
    NoDup ys ->
    (forall y, In y ys -> Py.get (Py.str y) series0 = None) ->
    Rand.for_each ys (year_body St normal uniform radio b t vol start) ad s
    = Some (Py.set radio (series0 ++ series_from' b t vol start ys s)%list ad,
            run (flat_map (fun y => if y <? start then []
                                    else year_calls vol y) ys) s).
Proof.
  induction ys as [|y ys IH]; intros ad s series0 Hget Hnd Hfresh.
  - simpl. rewrite app_nil_r, DictFacts.set_get_same by assumption.
    reflexivity.
  - inversion_clear Hnd as [|? ? Hy Hnd'].
    rewrite GeneratorFacts.for_each_cons. unfold year_body at 1.
    cbn [series_from flat_map].
    destruct (y <? start) eqn:Hskip.
    + unfold Rand.ret. apply IH; auto. intros; apply Hfresh; now right.
    + rewrite (GeneratorFacts.bind_Some _ _ _ _ _ _
                 (year_value_exact b t vol start y s)).
      unfold Rand.bind, Rand.item, Rand.ret. rewrite Hget.
      rewrite (DictFacts.set_fresh (Py.str y) _ series0)
        by (apply Hfresh; now left).
      rewrite (IH _ _ (series0 ++ [(Py.str y, year_store' b t vol start y s)])%list).
      * rewrite DictFacts.set_set_same, <- app_assoc, CallFacts.run_app.
        reflexivity.
      * apply DictFacts.get_set_same.
      * assumption.
      * intros y' Hy'. rewrite DictFacts.get_app.
        rewrite Hfresh by now right. simpl.
        destruct (String.eqb_spec (Py.str y) (Py.str y')) as [E|_];
          [|reflexivity].
        apply PyFacts.str_inj in E. subst y'. contradiction.
Qed.

(** The value of a year is computed from the state left by the turns of the
    years before it. *)
Lemma series_from_get b t vol start :
  forall (ys : list Z) s y,
    In y ys ->
    (y <? start) = false ->
    Py.get (Py.str y) (series_from' b t vol start ys s)
    = Some (year_store' b t vol start y
              (run (flat_map (fun y => if y <? start then []
                                       else year_calls vol y)
                             (take_until y ys)) s)).
Proof.
  induction ys as [|y0 ys IH]; intros s y Hin Hy; [contradiction|].
  cbn [series_from take_until].
  destruct (Z.eqb_spec y0 y) as [->|Hne].
  - rewrite Hy. cbn [Py.get]. now rewrite String.eqb_refl.
  - destruct Hin as [E|Hin]; [contradiction|].
    cbn [flat_map]. rewrite CallFacts.run_app.
    destruct (y0 <? start).
    + now apply IH.
    + cbn [Py.get].
      destruct (String.eqb_spec (Py.str y0) (Py.str y)) as [E|_].
      * apply PyFacts.str_inj in E. contradiction.
      * now apply IH.
Qed.

Lemma radio_body_exact ad radio params s :
  has_params (radio, params) = true ->
  Py.get radio ad = None ->
  radio_body St normal uniform ad (radio, params) s
  = Some ((ad ++ [(radio, station_series_from St normal uniform
                            (radio, params) s)])%list,
          run (station_calls (radio, params)) s).
Proof.
  intros Hp Hnew. unfold has_params in Hp.
  destruct (Py.get (Py.str (start_year_of radio)) params) as [b|] eqn:Hb;
    [|discriminate].
  destruct (Py.get "trend" params) as [t|] eqn:Ht; [|discriminate].
  destruct (Py.get "volatility" params) as [vol|] eqn:Hvol; [|discriminate].
  rewrite (GeneratorFacts.radio_body_params _ _ _ _ _ _ _ b t vol Hb Ht Hvol).
  rewrite (year_loop_exact radio b t vol (start_year_of radio)
             (Py.range 2002 2026) (Py.set radio [] ad) s []).
  - unfold station_series_from, station_calls, param. cbn [fst snd].
    rewrite Hb, Ht, Hvol, CallFacts.skipped_calls.
    change ([] ++ ?l)%list with l.
    now rewrite DictFacts.set_set_same, DictFacts.set_fresh.
  - apply DictFacts.get_set_same.
  - apply PyFacts.NoDup_range.
  - reflexivity.
Qed.

(** The loop over the stations, with the state each turn starts from. *)
Lemma radio_loop_exact :
  forall (ts : Py.dict (Py.dict float)) ad s,
    NoDup (Py.keys ts) ->
    (forall r, In r (Py.keys ts) -> Py.get r ad = None) ->
    Forall (fun entry => has_params entry = true) ts ->
    Rand.for_each ts (radio_body St normal uniform) ad s
    = Some ((ad ++ data_from St normal uniform ts s)%list,
            run (flat_map station_calls ts) s).
Proof.
  induction ts as [|[radio params] ts IH]; intros ad s Hnd Hfresh Hwf.
  - simpl. now rewrite app_nil_r.
  - inversion_clear Hnd as [|? ? Hr Hnd'].
    inversion_clear Hwf as [|? ? Hp Hwf'].
    rewrite GeneratorFacts.for_each_cons.
    rewrite radio_body_exact by (try assumption; apply Hfresh; now left).
    rewrite IH; try assumption.
    + cbn [data_from flat_map fst]. rewrite <- app_assoc, CallFacts.run_app.
      reflexivity.
    + intros r Hin. rewrite DictFacts.get_app, Hfresh by now right.
      simpl. destruct (String.eqb_spec radio r) as [->|_]; [|reflexivity].
      contradiction.
Qed.

(** The series of a station is computed from the state left by the turns of
    the stations before it. *)
Lemma data_from_get :
  forall (ts : Py.dict (Py.dict float)) s radio params,
    Py.get radio ts = Some params ->
    Py.get radio (data_from St normal uniform ts s)
    = Some (station_series_from St normal uniform (radio, params)
              (run (flat_map station_calls (entries_before radio ts)) s)).
Proof.
  induction ts as [|[r p] ts IH]; intros s radio params Hget; [discriminate|].
  cbn [Py.get data_from entries_before fst] in *.
  destruct (String.eqb_spec r radio) as [->|Hne].
  - apply LoopFacts.Some_inj in Hget. now subst p.
  - cbn [flat_map]. rewrite CallFacts.run_app. now apply IH.
Qed.

End Thread.

(** The calls of the years of a station before [year]. *)
Lemma calls_of_earlier_years radio vol year :
  start_year_of radio <= year <= 2025 ->
  flat_map (fun y => if y <? start_year_of radio then [] else year_calls vol y)
           (take_until year (Py.range 2002 2026))
  = flat_map (year_calls vol) (Py.range (start_year_of radio) year).
Proof.
  intros Hyear.
  assert (Hin : In year (Py.range 2002 2026)).
  { apply PyFacts.in_range. pose proof (TableFacts.start_year_bounds radio). lia. }
  revert Hyear. unfold start_year_of.
  destruct (String.eqb radio "Hit West"); intros Hyear;
    cbv [Py.range Z.sub Z.to_nat Z.opp Z.pos_sub Pos.to_nat Pos.iter_op
         Pos.pred_double Z.succ_double Z.pred_double Z.double Nat.add
         seq map Z.of_nat Z.add Pos.of_succ_nat Pos.succ Pos.add In] in Hin;
    repeat (destruct Hin as [<-|Hin]; [try lia; reflexivity|]);
    contradiction.
Qed.

End ThreadFacts.

(** Claim C4. For every station and every covered year, the value before
    clamping and rounding is baseline + slope * (year - start_year), plus one
    draw of the Gaussian noise with mean 0 and the volatility of the station
    as standard deviation, plus the shock of the year: minus an amount in
    [1, 2] drawn by [uniform] in 2008, plus an amount in [2, 4] in 2020, plus
    an amount in [-1, 1] in 2021, and nothing in any other year.  The noise
    is the draw that [normal] makes in the state the random source is in
    after every call the run made before this turn, so no two values share
    a draw, and the amount of the shock is drawn in the state that the noise
    draw leaves.  The generator is run on an explicit random source whose
    [uniform] returns a number between its bounds. *)
Theorem value_before_clamping :
  forall (St : Type) (normal uniform : float -> float -> St -> float * St),
    uniform_in_range uniform ->
    forall s : St,
    exists data s',
      _create_realistic_audience_data St normal uniform s = Some (data, s') /\
      forall radio params year,
        In (radio, params) trends ->
        start_year_of radio <= year <= 2025 ->
        exists baseline slope volatility s1 noise raw,
          Py.get (Py.str (start_year_of radio)) params = Some baseline /\
          Py.get "trend" params = Some slope /\
          Py.get "volatility" params = Some volatility /\
          normal 0%float volatility
            (run_calls St normal uniform (calls_before radio year) s)
          = (noise, s1) /\
          shock_applied uniform year s1
            (baseline
             + slope * Py.float_of_int (year - start_year_of radio)
             + noise)%float raw /\
          stored_value data radio year = Some (clamp_round raw).
Proof.
  intros St normal uniform Hrange s.
  pose proof (ThreadFacts.radio_loop_exact St normal uniform trends [] s
                GeneratorFacts.trends_keys_NoDup (fun r _ => eq_refl)
                GeneratorFacts.trends_have_params) as Hrun.
  cbn [app] in Hrun.
  exists (data_from St normal uniform trends s),
         (run_calls St normal uniform (flat_map station_calls trends) s).
  split; [exact Hrun|].
  intros radio params year Hin Hyear.
  assert (Hparams : Py.get radio trends = Some params)
    by (apply DictFacts.get_In;
        [apply GeneratorFacts.trends_keys_NoDup|assumption]).
  pose proof GeneratorFacts.trends_have_params as Hwf.
  rewrite Forall_forall in Hwf. specialize (Hwf _ Hin).
  unfold has_params in Hwf.
  destruct (Py.get (Py.str (start_year_of radio)) params) as [b|] eqn:Hb;
    [|discriminate].
  destruct (Py.get "trend" params) as [t|] eqn:Ht; [|discriminate].
  destruct (Py.get "volatility" params) as [vol|] eqn:Hvol; [|discriminate].
  set (s_station := run_calls St normal uniform
                      (flat_map station_calls (entries_before radio trends)) s).
  set (s0 := run_calls St normal uniform (calls_before radio year) s).
  assert (Hs0 : s0 = run_calls St normal uniform
                       (flat_map (fun y => if y <? start_year_of radio then []
                                           else year_calls vol y)
                                 (take_until year (Py.range 2002 2026)))
                       s_station).
  { unfold s0, calls_before. rewrite Hparams, Hvol, CallFacts.run_app.
    now rewrite ThreadFacts.calls_of_earlier_years. }
  assert (Hstored : stored_value (data_from St normal uniform trends s)
                      radio year
                    = Some (year_store St normal uniform b t vol
                              (start_year_of radio) year s0)).
  { unfold stored_value.
    rewrite (ThreadFacts.data_from_get _ _ _ _ _ _ _ Hparams).
    fold s_station. unfold station_series_from, param. cbn [fst snd].
    rewrite Hb, Ht, Hvol, Hs0.
    apply ThreadFacts.series_from_get.
    - apply PyFacts.in_range.
      pose proof (TableFacts.start_year_bounds radio). lia.
    - apply Z.ltb_ge. lia. }
  pose proof (ThreadFacts.year_value_exact St normal uniform b t vol
                (start_year_of radio) year s0) as Hval.
  destruct (ShapeFacts.year_value_clamped _ _ _ _ _ _ _ _ _ _ _ Hval)
    as (raw & Hraw & Hclamp).
  destruct (RawFacts.raw_value_formula _ _ _ Hrange _ _ _ _ _ _ _ _ Hraw)
    as (noise & s1 & Hnoise & Hshock).
  exists b, t, vol, s1, noise, raw.
  rewrite Hstored, Hclamp. auto 10.
Qed.

(** The theorem of claim C4 at a source without noise whose [uniform]
    returns its lower bound. *)
Lemma value_before_clamping_witness :
  uniform_in_range (@low_uniform unit) /\
  exists data s',
    _create_realistic_audience_data unit zero_normal low_uniform tt
    = Some (data, s') /\
    forall radio params year,
      In (radio, params) trends ->
      start_year_of radio <= year <= 2025 ->
      exists baseline slope volatility s1 noise raw,
        Py.get (Py.str (start_year_of radio)) params = Some baseline /\
        Py.get "trend" params = Some slope /\
        Py.get "volatility" params = Some volatility /\
        @zero_normal unit 0 volatility
          (run_calls unit zero_normal low_uniform (calls_before radio year) tt)
        = (noise, s1) /\
        shock_applied low_uniform year s1
          (baseline
           + slope * Py.float_of_int (year - start_year_of radio)
           + noise)%float raw /\
        stored_value data radio year = Some (clamp_round raw).
Proof.
  split.
  - apply RawFacts.low_uniform_in_range.
  - apply (value_before_clamping unit zero_normal low_uniform
             (RawFacts.low_uniform_in_range unit) tt).
Defined.
